(** * oak [response.ts]: the response model of the middleware framework

    A shallow embedding of [src/response.ts] (class [Response]) and a
    verification of its property contracts: lazy status inference, body
    resolution, one-way writability, memoised terminal conversion and the
    redirect helper.

    JavaScript values are an inductive type; [Headers] objects and the
    payload objects built by [toServerResponse] live in a store and are
    referred to by location, because the class hands out and keeps
    references to them; methods are computations in a state-and-exception
    monad over (instance fields, store). *)

From Stdlib Require Import ZArith String Ascii DecimalString.
From Stdlib Require Import Floats.SpecFloat.
From stdpp Require Import base option list gmap.

Set Warnings "-register-all".

Local Open Scope string_scope.
Local Open Scope Z_scope.

(** ** JavaScript values *)

(** The values a body (or any other [any]-typed slot) can hold.  Numbers are
    IEEE-754 doubles in their specification form; a symbol is represented by
    its description; a function by its name.  Objects are byte arrays,
    arrays, and records of named properties (own or inherited). *)
Inductive JsValue : Type :=
| JUndefined
| JNull
| JBoolean (b : bool)
| JNumber (n : spec_float)
| JBigInt (z : Z)
| JString (s : string)
| JSymbol (description : string)
| JFunction (name : string)
| JUint8Array (bytes : list Byte.byte)
| JArray (elems : list JsValue)
| JObject (props : list (string * JsValue)).

(** [typeof value] *)
Definition typeof (v : JsValue) : string :=
  match v with
  | JUndefined => "undefined"
  | JNull => "object"
  | JBoolean _ => "boolean"
  | JNumber _ => "number"
  | JBigInt _ => "bigint"
  | JString _ => "string"
  | JSymbol _ => "symbol"
  | JFunction _ => "function"
  | JUint8Array _ | JArray _ | JObject _ => "object"
  end.

(** Truthiness of a string: only the empty string is falsy. *)
Definition str_truthy (s : string) : bool :=
  match s with
  | EmptyString => false
  | String _ _ => true
  end.

(** Truthiness of a number: zeros and NaN are falsy. *)
Definition num_truthy (n : spec_float) : bool :=
  match n with
  | S754_zero _ | S754_nan => false
  | S754_infinity _ | S754_finite _ _ _ => true
  end.

(** [ToBoolean]: the value as a condition. *)
Definition truthy (v : JsValue) : bool :=
  match v with
  | JUndefined | JNull => false
  | JBoolean b => b
  | JNumber n => num_truthy n
  | JBigInt z => negb (z =? 0)
  | JString s => str_truthy s
  | JSymbol _ | JFunction _ => true
  | JUint8Array _ | JArray _ | JObject _ => true
  end.

(** [array.includes(x)] on an array of strings. *)
Definition includes (l : list string) (x : string) : bool :=
  existsb (String.eqb x) l.

(** [value instanceof Uint8Array] *)
Definition instanceof_Uint8Array (v : JsValue) : bool :=
  match v with
  | JUint8Array _ => true
  | _ => false
  end.

(** Property lookup on a record of properties: the first binding wins. *)
Fixpoint prop_lookup (props : list (string * JsValue)) (key : string)
  : option JsValue :=
  match props with
  | [] => None
  | (k, v) :: rest => if String.eqb k key then Some v else prop_lookup rest key
  end.

(** Errors a method can throw: the constructor name and the message. *)
Inductive ErrorName := Error_ | TypeError_.

Record JsError := mkError { err_name : ErrorName; err_message : string }.

(** The outcome of evaluating an expression or a call. *)
Inductive Completion (A : Type) : Type :=
| Normal (a : A)
| Throw (e : JsError).
Arguments Normal {A} a.
Arguments Throw {A} e.

(** [key in value]: throws a [TypeError] when the right operand is not an
    object (the wording of the message is the engine's); the built-in array
    kinds have no property of the names asked for here (["read"]). *)
Definition js_in (key : string) (v : JsValue) : Completion bool :=
  match v with
  | JObject props => Normal (bool_decide (is_Some (prop_lookup props key)))
  | JUint8Array _ | JArray _ | JFunction _ => Normal false
  | _ =>
      Throw (mkError TypeError_
               "Cannot use 'in' operator to search for a key in a non-object")
  end.

(** [value.key]: [undefined] where there is no such property. *)
Definition js_get (v : JsValue) (key : string) : JsValue :=
  match v with
  | JObject props => default JUndefined (prop_lookup props key)
  | _ => JUndefined
  end.

(** [isReader], lines 20-23: the guard for [Deno.Reader].  The [&&] chain
    evaluates left to right and stops at the first falsy operand, so the
    [in] test is reached by every value whose [typeof] is ["object"],
    [null] included. *)
Definition isReader (value : JsValue) : Completion bool :=
  if String.eqb (typeof value) "object" then
    match js_in "read" value with
    | Throw e => Throw e
    | Normal false => Normal false
    | Normal true =>
        Normal (String.eqb (typeof (js_get value "read")) "function")
    end
  else Normal false.

(** [const BODY_TYPES], line 15. *)
Definition BODY_TYPES : list string :=
  ["string"; "number"; "bigint"; "boolean"; "symbol"].

(** ** The [Headers] class of the platform

    An ordered list of (name, value) entries; names are matched without
    regard to ASCII case and stored in lower case.  Before it stores, the
    platform throws a [TypeError] on a name that is not an HTTP token and
    on a value with a forbidden character, and strips the white space
    around a value.  [append] and [set] below are the methods on arguments
    that pass these checks and that stripping leaves as they are
    ([legal_name], [plain_value]); the class itself passes constant names,
    and as values "0" and what [contentType] and [encodeUrl] return. *)
Module Headers.

Definition t : Type := list (string * string).

(** The characters of an HTTP token: letters, digits and
    [! # $ % & ' * + - . ^ _ ` | ~]. *)
Definition token_char (c : ascii) : bool :=
  let n := nat_of_ascii c in
  ((48 <=? n) && (n <=? 57) || (65 <=? n) && (n <=? 90)
   || (97 <=? n) && (n <=? 122)
   || existsb (Nat.eqb n)
        [33; 35; 36; 37; 38; 39; 42; 43; 45; 46; 94; 95; 96; 124; 126])%nat.

(** A name the platform accepts: a token that is not empty. *)
Definition legal_name (name : string) : bool :=
  match list_ascii_of_string name with
  | [] => false
  | chars => forallb token_char chars
  end.

Definition visible_char (c : ascii) : bool :=
  let n := nat_of_ascii c in ((33 <=? n) && (n <=? 126))%nat.

Definition value_char (c : ascii) : bool :=
  let n := nat_of_ascii c in ((n =? 9) || (32 <=? n) && (n <=? 126))%nat.

(** A value the platform accepts and stores as it is: visible ASCII,
    spaces and tabs, with a visible character at either end. *)
Definition plain_value (value : string) : bool :=
  let chars := list_ascii_of_string value in
  forallb value_char chars
  && match chars with [] => true | c :: _ => visible_char c end
  && match last chars with Some c => visible_char c | None => true end.

Definition lower_ascii (c : ascii) : ascii :=
  let n := nat_of_ascii c in
  if ((65 <=? n) && (n <=? 90))%nat then ascii_of_nat (n + 32) else c.

Fixpoint lower (s : string) : string :=
  match s with
  | EmptyString => EmptyString
  | String c rest => String (lower_ascii c) (lower rest)
  end.

Definition same_name (name : string) (entry : string * string) : bool :=
  String.eqb (lower entry.1) (lower name).

Definition has (h : t) (name : string) : bool :=
  existsb (same_name name) h.

Fixpoint join (values : list string) : string :=
  match values with
  | [] => EmptyString
  | [v] => v
  | v :: rest => v ++ ", " ++ join rest
  end.

(** [get]: [null] (here [None]) when no entry has the name, otherwise the
    values of all entries of that name, joined. *)
Definition get (h : t) (name : string) : option string :=
  match List.filter (same_name name) h with
  | [] => None
  | entries => Some (join (map snd entries))
  end.

Definition append (h : t) (name value : string) : t :=
  (h ++ [(lower name, value)])%list.

(** [set]: the first entry of that name takes the value and the others
    are removed; without such an entry the pair is appended. *)
Fixpoint set (h : t) (name value : string) : t :=
  match h with
  | [] => [(lower name, value)]
  | e :: rest =>
      if same_name name e
      then (e.1, value) :: List.filter (fun e' => negb (same_name name e')) rest
      else e :: set rest name value
  end.

End Headers.

(** ** Collaborators *)

(** Modelled from the spec: the [Status] enumeration of [deps.ts], of which
    the class uses the three members the spec calls the 200-equivalent (OK),
    the 302-equivalent (Found) and the 404-equivalent (Not Found). *)
Module Status.
Definition OK : Z := 200.
Definition Found : Z := 302.
Definition NotFound : Z := 404.
End Status.

(** The functions the class calls and does not define: those of the
    JavaScript platform ([String] of a number or of an object,
    [TextEncoder.encode], [JSON.stringify], [encodeURI]), the media type
    lookup [contentType] of [deps.ts], and [isHtml], [isRedirectStatus] and
    [encodeUrl] of [util.ts].  [JSON.stringify] returns the text, or
    [undefined] for a value without JSON form, or throws (a big integer
    inside the value, a [toJSON] that throws). *)
Class Platform := {
  Number_toString : spec_float -> string;
  Object_toString : JsValue -> string;
  TextEncoder_encode : string -> list Byte.byte;
  JSON_stringify : JsValue -> Completion (option string);
  encodeURI : string -> string;
  contentType : string -> option string;
  isHtml : string -> bool;
  isRedirectStatus : Z -> bool;
  encodeUrl : string -> string
}.

(** What the class reads of a [Request]: its headers and the answer of
    [accepts] taken as a condition. *)
Record Request := mkRequest {
  req_headers : Headers.t;
  req_accepts : string -> bool
}.

(** A [URL] object; [String(url)] is its [href]. *)
Record URL := mkURL { href : string }.

(** The first argument of [redirect]: [string | URL | typeof REDIRECT_BACK]. *)
Inductive RedirectTarget :=
| ToString_ (s : string)
| ToURL (u : URL)
| REDIRECT_BACK.

(** The second argument of [redirect]: [string | URL]. *)
Inductive StringOrURL :=
| AltString (s : string)
| AltURL (u : URL).

(** ** Objects and the store *)

Definition loc := nat.

(** [interface ServerResponse], lines 7-11, as [toServerResponse] fills
    it: the headers are a reference to a [Headers] object. *)
Record ServerResponse := mkServerResponse {
  sr_status : Z;
  sr_headers : loc;
  sr_body : JsValue
}.

(** The store: the [Headers] objects and the payload objects by location. *)
Record Store := mkStore {
  headers_objects : gmap loc Headers.t;
  payload_objects : gmap loc ServerResponse
}.

(** The private fields of a [Response] instance, lines 26-32. *)
Record Response := mkResponse {
  _body : JsValue;
  _headers : loc;
  _request : Request;
  _serverResponse : option loc;
  _status : option Z;
  _type : option string;
  _writable : bool
}.

Record State := mkState { this : Response; store : Store }.

(** ** Computations: state and exceptions *)

Definition M (A : Type) : Type := State -> Completion A * State.

Definition ret {A} (a : A) : M A := fun s => (Normal a, s).

Definition bind {A B} (m : M A) (k : A -> M B) : M B :=
  fun s =>
    match m s with
    | (Normal a, s') => k a s'
    | (Throw e, s') => (Throw e, s')
    end.

Definition throw {A} (e : JsError) : M A := fun s => (Throw e, s).

Definition lift {A} (c : Completion A) : M A := fun s => (c, s).

Definition read {A} (f : Response -> A) : M A :=
  fun s => (Normal (f (this s)), s).

Definition write (f : Response -> Response) : M unit :=
  fun s => (Normal tt, mkState (f (this s)) (store s)).

Declare Scope js_scope.
Delimit Scope js_scope with js.
Notation "'let*' x ':=' m 'in' k" := (bind m (fun x => k))
  (at level 10, x name, m at level 100, k at level 200) : js_scope.
Notation "'do' m 'then' k" := (bind m (fun _ => k))
  (at level 10, m at level 100, k at level 200) : js_scope.
Local Open Scope js_scope.

(** The content of the [Headers] object at a location. *)
Definition headers_at (st : Store) (l : loc) : Headers.t :=
  default [] (headers_objects st !! l).

Definition update_headers (l : loc) (f : Headers.t -> Headers.t) (st : Store)
  : Store :=
  mkStore (<[l := f (headers_at st l)]> (headers_objects st))
          (payload_objects st).

(** [h.has(name)], [h.append(name, value)] and [h.set(name, value)] on the
    object a reference points to. *)
Definition headers_has (l : loc) (name : string) : M bool :=
  fun s => (Normal (Headers.has (headers_at (store s) l) name), s).

Definition headers_append (l : loc) (name value : string) : M unit :=
  fun s =>
    (Normal tt,
     mkState (this s)
       (update_headers l (fun h => Headers.append h name value) (store s))).

Definition headers_set (l : loc) (name value : string) : M unit :=
  fun s =>
    (Normal tt,
     mkState (this s)
       (update_headers l (fun h => Headers.set h name value) (store s))).

(** A new object: a location no payload object has yet. *)
Definition new_payload (p : ServerResponse) : M loc :=
  fun s =>
    let l := fresh (dom (payload_objects (store s))) in
    (Normal l,
     mkState (this s)
       (mkStore (headers_objects (store s))
                (<[l := p]> (payload_objects (store s))))).

(** Assignments to the private fields. *)
Definition with_body (value : JsValue) (r : Response) : Response :=
  mkResponse value (_headers r) (_request r) (_serverResponse r) (_status r)
             (_type r) (_writable r).

Definition with_headers (value : loc) (r : Response) : Response :=
  mkResponse (_body r) value (_request r) (_serverResponse r) (_status r)
             (_type r) (_writable r).

Definition with_serverResponse (value : option loc) (r : Response) : Response :=
  mkResponse (_body r) (_headers r) (_request r) value (_status r)
             (_type r) (_writable r).

Definition with_status (value : option Z) (r : Response) : Response :=
  mkResponse (_body r) (_headers r) (_request r) (_serverResponse r) value
             (_type r) (_writable r).

Definition with_type (value : option string) (r : Response) : Response :=
  mkResponse (_body r) (_headers r) (_request r) (_serverResponse r) (_status r)
             value (_writable r).

Definition with_writable (value : bool) (r : Response) : Response :=
  mkResponse (_body r) (_headers r) (_request r) (_serverResponse r) (_status r)
             (_type r) value.

(** An optional number as a condition: [undefined] and [0] are falsy. *)
Definition status_truthy (st : option Z) : bool :=
  match st with
  | Some n => negb (n =? 0)
  | None => false
  end.

(** [t || fallback] on an optional string: [undefined] and the empty string
    give the fallback. *)
Definition type_or (t : option string) (fallback : string) : string :=
  match t with
  | Some s => if str_truthy s then s else fallback
  | None => fallback
  end.

(** The double quote character, for the anchor of the redirect message. *)
Definition dquote : string := String (ascii_of_nat 34) EmptyString.

(** ** The class [Response] *)

Section ResponseClass.

Context `{Platform}.

Definition notWritable : JsError :=
  mkError Error_ "The response is not writable.".

Definition couldNotConvert : JsError :=
  mkError TypeError_ "Response body was set, but could not convert".

(** [String(value)]: defined here on the primitives, on which lines 38
    and 164-166 call it for strings, booleans, big integers and symbols. *)
Definition String_ (value : JsValue) : string :=
  match value with
  | JUndefined => "undefined"
  | JNull => "null"
  | JBoolean true => "true"
  | JBoolean false => "false"
  | JNumber n => Number_toString n
  | JBigInt z => NilZero.string_of_int (Z.to_int z)
  | JString s => s
  | JSymbol d => "Symbol(" ++ d ++ ")"
  | JFunction _ | JUint8Array _ | JArray _ | JObject _ =>
      Object_toString value
  end.

(** [new Response(request)], lines 26-32 and 137-139: the instance owns a
    new, empty [Headers] object. *)
Definition constructor (request : Request) (st : Store) : State :=
  let l := fresh (dom (headers_objects st)) in
  mkState (mkResponse JUndefined l request None None None true)
          (mkStore (<[l := []]> (headers_objects st)) (payload_objects st)).

(** [get body], lines 64-66. *)
Definition body : M JsValue := read _body.

(** [set body], lines 71-76. *)
Definition set_body (value : JsValue) : M unit :=
  let* w := read _writable in
  if negb w then throw notWritable
  else write (with_body value).

(** [get headers], lines 79-81. *)
Definition headers : M loc := read _headers.

(** [set headers], lines 84-89. *)
Definition set_headers (value : loc) : M unit :=
  let* w := read _writable in
  if negb w then throw notWritable
  else write (with_headers value).

(** [get status], lines 96-105: a function of the fields. *)
Definition status_value (r : Response) : Z :=
  if status_truthy (_status r) then default 0 (_status r)
  else
    let typeofbody := typeof (_body r) in
    if truthy (_body r) &&
       (includes BODY_TYPES typeofbody || String.eqb typeofbody "object")
    then Status.OK
    else Status.NotFound.

Definition status : M Z := read status_value.

(** [set status], lines 112-117. *)
Definition set_status (value : Z) : M unit :=
  let* w := read _writable in
  if negb w then throw notWritable
  else write (with_status (Some value)).

(** [get type], lines 121-123. *)
Definition type : M (option string) := read _type.

(** [set type], lines 124-129. *)
Definition set_type (value : option string) : M unit :=
  let* w := read _writable in
  if negb w then throw notWritable
  else write (with_type value).

(** [get writable], lines 133-135. *)
Definition writable : M bool := read _writable.

(** [encoder.encode(text)] where the text may be [undefined]: the
    parameter of [encode] has the empty string as its default. *)
Definition encode_optional (text : option string) : list Byte.byte :=
  TextEncoder_encode (default EmptyString text).

(** [#getBody], lines 34-50.  In rule 3 the body is serialised, and the
    result encoded, before the type is assigned: when [JSON.stringify]
    throws, nothing has been assigned. *)
Definition getBody : M JsValue :=
  let* b := body in
  let typeofBody := typeof b in
  if includes BODY_TYPES typeofBody then
    let bodyText := String_ b in
    let result := JUint8Array (TextEncoder_encode bodyText) in
    let* t := type in
    do set_type
         (Some (type_or t (if isHtml bodyText then "html" else "text/plain")))
    then ret result
  else
    let* passes :=
      (if instanceof_Uint8Array b then ret true else lift (isReader b)) in
    if passes then ret b
    else if truthy b && String.eqb typeofBody "object" then
      let* text := lift (JSON_stringify b) in
      let result := JUint8Array (encode_optional text) in
      let* t := type in
      do set_type (Some (type_or t "json"))
      then ret result
    else if truthy b then throw couldNotConvert
    else ret JUndefined.

(** [#setContentType], lines 52-59. *)
Definition setContentType : M unit :=
  let* t := type in
  if str_truthy (default EmptyString t) then
    match contentType (default EmptyString t) with
    | Some contentTypeString =>
        if str_truthy contentTypeString then
          let* h := headers in
          let* present := headers_has h "Content-Type" in
          if negb present then
            let* h' := headers in
            headers_append h' "Content-Type" contentTypeString
          else ret tt
        else ret tt
    | None => ret tt
    end
  else ret tt.

(** The target of a redirect, lines 163-167: the referrer or the
    alternative (["/"] when it is left out) for [REDIRECT_BACK], the text
    of a [URL] object, or the string itself. *)
Definition String_alt (alt : StringOrURL) : string :=
  match alt with
  | AltString a => a
  | AltURL u => href u
  end.

Definition redirect_target (request : Request) (url : RedirectTarget)
    (alt : option StringOrURL) : string :=
  let alt := default (AltString "/") alt in
  match url with
  | REDIRECT_BACK =>
      match Headers.get (req_headers request) "Referrer" with
      | Some referrer => referrer
      | None => String_alt alt
      end
  | ToURL u => href u
  | ToString_ u => u
  end.

(** [redirect], lines 159-181.  The [status] getter has no effect, so the
    two reads of line 169 are one here. *)
Definition redirect (url : RedirectTarget) (alt : option StringOrURL)
  : M unit :=
  let* request := read _request in
  let url := redirect_target request url alt in
  let* h := headers in
  do headers_set h "Location" (encodeUrl url) then
  let* st := status in
  do (if (st =? 0) || negb (isRedirectStatus st)
      then set_status Status.Found
      else ret tt) then
  if req_accepts request "html" then
    let url := encodeURI url in
    do set_type (Some "text/html; charset=utf-8") then
    set_body
      (JString ("Redirecting to <a href=" ++ dquote ++ url ++ dquote ++ ">"
                ++ url ++ "</a>."))
  else
    do set_type (Some "text/plain; charset=utf-8") then
    set_body (JString ("Redirecting to " ++ url ++ ".")).

(** [toServerResponse], lines 185-215.  The payload is a new object; the
    instance keeps the reference to it and returns that reference.  The
    [has] tests of lines 202-203 have no effect, so both are made. *)
Definition toServerResponse : M loc :=
  let* memo := read _serverResponse in
  match memo with
  | Some payload => ret payload
  | None =>
      let* body := getBody in
      do setContentType then
      let* headers := headers in
      let* hasType := headers_has headers "Content-Type" in
      let* hasLength := headers_has headers "Content-Length" in
      do (if negb (truthy body || hasType || hasLength)
          then headers_append headers "Content-Length" "0"
          else ret tt) then
      do write (with_writable false) then
      let* st := read _status in
      let* payload :=
        new_payload
          (mkServerResponse
             (default (if truthy body then Status.OK else Status.NotFound) st)
             headers body) in
      do write (with_serverResponse (Some payload)) then
      ret payload
  end.

End ResponseClass.

(** ** Use of an instance by the middleware *)

(** What the code around an instance can do with it: assign to its four
    properties, change the [Headers] object that the [headers] getter hands
    out, call [redirect], call [toServerResponse]. *)
Inductive Call :=
| SetBody (value : JsValue)
| SetHeaders (value : loc)
| SetStatus (value : Z)
| SetType (value : option string)
| HeadersAppend (name value : string)
| HeadersSet (name value : string)
| Redirect (url : RedirectTarget) (alt : option StringOrURL)
| ToServerResponse.

Section Traces.

Context `{Platform}.

Definition forget {A} (m : M A) : M unit := let* _ := m in ret tt.

Definition call (c : Call) : M unit :=
  match c with
  | SetBody v => set_body v
  | SetHeaders h => set_headers h
  | SetStatus n => set_status n
  | SetType t => set_type t
  | HeadersAppend name value =>
      let* h := headers in headers_append h name value
  | HeadersSet name value =>
      let* h := headers in headers_set h name value
  | Redirect url alt => redirect url alt
  | ToServerResponse => forget toServerResponse
  end.

(** The state after a call, whether it returned or threw: the caller
    goes on with the same instance. *)
Definition after (c : Call) (s : State) : State := (call c s).2.

Definition after_all (cs : list Call) (s : State) : State :=
  fold_left (fun s c => after c s) cs s.

End Traces.

(** A body that is set and that no rule of [#getBody] takes: truthy, and
    neither a primitive, nor bytes, nor a reader, nor any other object. *)
Definition unconvertible (b : JsValue) : bool :=
  truthy b
  && negb (includes BODY_TYPES (typeof b))
  && negb (instanceof_Uint8Array b)
  && match isReader b with Normal false => true | _ => false end
  && negb (String.eqb (typeof b) "object").

(** A body that rule 3 of [#getBody] takes: an object other than [null]
    that is neither bytes nor a reader. *)
Definition structured (b : JsValue) : bool :=
  truthy b
  && String.eqb (typeof b) "object"
  && negb (instanceof_Uint8Array b)
  && match isReader b with Normal false => true | _ => false end.

(** The two phases of an instance: writable and without payload, or frozen
    with a payload whose headers are the instance's [Headers] object and
    with the body that was converted. *)
Definition consistent (s : State) : bool :=
  match _serverResponse (this s) with
  | None => _writable (this s)
  | Some p =>
      negb (_writable (this s)) &&
      negb (unconvertible (_body (this s))) &&
      match payload_objects (store s) !! p with
      | Some payload => Nat.eqb (sr_headers payload) (_headers (this s))
      | None => false
      end
  end.

(** The headers of the instance, as the [headers] getter shows them. *)
Definition current_headers (s : State) : Headers.t :=
  headers_at (store s) (_headers (this s)).

(** The test of lines 199-205: the empty body marker is due when there is
    no resolved body and neither header. *)
Definition needs_length (body : JsValue) (h : Headers.t) : bool :=
  negb (truthy body || Headers.has h "Content-Type"
        || Headers.has h "Content-Length").

(** ** A platform to run the class on

    Instances of the collaborators for the runs at the end of the file; each
    agrees with the function it stands for on the arguments those runs
    reach. *)
Module Sample.

Definition Number_toString (n : spec_float) : string :=
  match n with
  | S754_zero _ => "0"
  | S754_nan => "NaN"
  | S754_infinity false => "Infinity"
  | S754_infinity true => "-Infinity"
  | S754_finite sign m e =>
      NilZero.string_of_int
        (Z.to_int ((if sign then -1 else 1) * Z.pos m * 2 ^ e))
  end.

Definition Object_toString (v : JsValue) : string := "[object Object]".

Definition TextEncoder_encode (text : string) : list Byte.byte :=
  list_byte_of_string text.

Definition JSON_stringify (v : JsValue) : Completion (option string) :=
  match v with
  | JObject [] => Normal (Some "{}")
  | JArray [] => Normal (Some "[]")
  | JObject [(_, JBigInt _)] | JArray [JBigInt _] =>
      Throw (mkError TypeError_ "Do not know how to serialize a BigInt")
  | _ => Normal (Some "null")
  end.

Definition encodeURI (uri : string) : string := uri.

Definition encodeUrl (url : string) : string := url.

Definition contentType (t : string) : option string :=
  if String.eqb t "json" then Some "application/json; charset=utf-8"
  else if String.eqb t "html" then Some "text/html; charset=utf-8"
  else if String.eqb t "text/plain" then Some "text/plain; charset=utf-8"
  else if String.eqb t "text/html; charset=utf-8" then Some t
  else if String.eqb t "text/plain; charset=utf-8" then Some t
  else None.

Definition isHtml (text : string) : bool :=
  String.prefix "<html" text || String.prefix "<body" text
  || String.prefix "<!DOCTYPE" text.

Definition isRedirectStatus (value : Z) : bool :=
  bool_decide (value ∈ [300; 301; 302; 303; 305; 307; 308]).

Definition platform : Platform :=
  Build_Platform Number_toString Object_toString TextEncoder_encode
                 JSON_stringify encodeURI contentType isHtml
                 isRedirectStatus encodeUrl.

(** A request without headers whose client takes plain text only, and one
    that accepts html. *)
Definition plain_request : Request := mkRequest [] (fun _ => false).
Definition html_request : Request := mkRequest [] (String.eqb "html").

Definition empty_store : Store := mkStore ∅ ∅.

(** A new instance in an empty store. *)
Definition fresh_response (request : Request) : State :=
  constructor request empty_store.

(** The same with a body assigned. *)
Definition response_with_body (request : Request) (value : JsValue) : State :=
  after (H := platform) (SetBody value) (fresh_response request).

(** A second instance in the store of a first one: two [Headers] objects. *)
Definition second_response : State :=
  constructor plain_request (store (fresh_response plain_request)).

(** An instance that was converted without a body. *)
Definition converted_response (request : Request) : State :=
  after (H := platform) ToServerResponse (fresh_response request).

(** An instance with an empty object as body and the empty string as
    type. *)
Definition empty_type_response : State :=
  after_all (H := platform)
    [SetBody (JObject []); SetType (Some EmptyString)]
    (fresh_response plain_request).

End Sample.

(** * Properties *)

(** ** The [Headers] operations *)

Lemma lower_ascii_idem (c : ascii) :
  Headers.lower_ascii (Headers.lower_ascii c) = Headers.lower_ascii c.
Proof.
  destruct c as [[] [] [] [] [] [] [] []]; reflexivity.
Qed.

Lemma lower_idem (s : string) :
  Headers.lower (Headers.lower s) = Headers.lower s.
Proof.
  induction s as [|c s IH]; simpl; [reflexivity|].
  by rewrite lower_ascii_idem, IH.
Qed.

Lemma same_name_lower (name value : string) :
  Headers.same_name name (Headers.lower name, value) = true.
Proof.
  unfold Headers.same_name; simpl. rewrite lower_idem. apply String.eqb_refl.
Qed.

Lemma filter_same_name_out (name : string) (h : Headers.t) :
  List.filter (Headers.same_name name)
    (List.filter (fun e => negb (Headers.same_name name e)) h) = [].
Proof.
  induction h as [|e h IH]; simpl; [reflexivity|].
  destruct (Headers.same_name name e) eqn:E; simpl; [exact IH|].
  by rewrite E.
Qed.

(** After [set(name, value)], [get(name)] is the value alone. *)
Lemma get_set (h : Headers.t) (name value : string) :
  Headers.get (Headers.set h name value) name = Some value.
Proof.
  unfold Headers.get.
  induction h as [|e h IH]; simpl.
  - by rewrite same_name_lower.
  - destruct (Headers.same_name name e) eqn:E; simpl.
    + replace (Headers.same_name name (e.1, value)) with true
        by (symmetry; exact E).
      by rewrite filter_same_name_out.
    + rewrite E. exact IH.
Qed.

(** [has] after [append]: the appended name is there, others as before. *)
Lemma has_append (h : Headers.t) (name value name' : string) :
  Headers.has (Headers.append h name value) name' =
  Headers.has h name' || Headers.same_name name' (Headers.lower name, value).
Proof.
  unfold Headers.has, Headers.append.
  by rewrite existsb_app; simpl; rewrite orb_false_r.
Qed.

(** ** The store *)

Lemma headers_at_update (st : Store) (l : loc) (f : Headers.t -> Headers.t) :
  headers_at (update_headers l f st) l = f (headers_at st l).
Proof.
  unfold headers_at, update_headers; simpl. by rewrite lookup_insert_eq.
Qed.

Lemma headers_at_update_ne (st : Store) (l l' : loc)
    (f : Headers.t -> Headers.t) :
  l ≠ l' -> headers_at (update_headers l f st) l' = headers_at st l'.
Proof.
  intros Hne. unfold headers_at, update_headers; simpl.
  by rewrite lookup_insert_ne.
Qed.

(** ** Setters: the writability guard *)

Ltac run :=
  unfold forget, bind, ret, read, write, throw, lift, headers_has,
    headers_append, headers_set, new_payload; simpl.

Section Setters.

Variable s : State.

Lemma set_body_writable value :
  _writable (this s) = true ->
  set_body value s = (Normal tt, mkState (with_body value (this s)) (store s)).
Proof. intros W. unfold set_body. run. by rewrite W. Qed.

Lemma set_headers_writable value :
  _writable (this s) = true ->
  set_headers value s =
  (Normal tt, mkState (with_headers value (this s)) (store s)).
Proof. intros W. unfold set_headers. run. by rewrite W. Qed.

Lemma set_status_writable value :
  _writable (this s) = true ->
  set_status value s =
  (Normal tt, mkState (with_status (Some value) (this s)) (store s)).
Proof. intros W. unfold set_status. run. by rewrite W. Qed.

Lemma set_type_writable value :
  _writable (this s) = true ->
  set_type value s = (Normal tt, mkState (with_type value (this s)) (store s)).
Proof. intros W. unfold set_type. run. by rewrite W. Qed.

Lemma set_body_frozen value :
  _writable (this s) = false -> set_body value s = (Throw notWritable, s).
Proof. intros W. unfold set_body. run. by rewrite W. Qed.

Lemma set_headers_frozen value :
  _writable (this s) = false -> set_headers value s = (Throw notWritable, s).
Proof. intros W. unfold set_headers. run. by rewrite W. Qed.

Lemma set_status_frozen value :
  _writable (this s) = false -> set_status value s = (Throw notWritable, s).
Proof. intros W. unfold set_status. run. by rewrite W. Qed.

Lemma set_type_frozen value :
  _writable (this s) = false -> set_type value s = (Throw notWritable, s).
Proof. intros W. unfold set_type. run. by rewrite W. Qed.

End Setters.

(** ** The [status] getter *)

(** Without an explicit status, a truthy body that is a primitive or an
    object reads as OK. *)
Lemma status_truthy_body (r : Response) :
  status_truthy (_status r) = false ->
  truthy (_body r) = true ->
  includes BODY_TYPES (typeof (_body r)) = true ∨ typeof (_body r) = "object" ->
  status_value r = Status.OK.
Proof.
  intros St T K. unfold status_value. cbn zeta. rewrite St, T. cbn [andb].
  destruct K as [-> | ->]; [reflexivity|].
  by rewrite String.eqb_refl, orb_true_r.
Qed.

(** Without an explicit status, an absent or null body reads as Not Found. *)
Lemma status_absent_body (r : Response) :
  status_truthy (_status r) = false ->
  _body r = JUndefined ∨ _body r = JNull ->
  status_value r = Status.NotFound.
Proof.
  intros St K. unfold status_value. rewrite St.
  by destruct K as [-> | ->].
Qed.

(** Without an explicit status, any falsy body reads as Not Found, the
    falsy primitives included; so does a function. *)
Lemma status_falsy_body (r : Response) :
  status_truthy (_status r) = false ->
  truthy (_body r) = false ∨ typeof (_body r) = "function" ->
  status_value r = Status.NotFound.
Proof.
  intros St K. unfold status_value. cbn zeta. rewrite St.
  destruct K as [-> | ->]; [reflexivity|]. by rewrite andb_false_r.
Qed.

(** The getter never reads as zero. *)
Lemma status_value_nonzero (r : Response) : (status_value r =? 0) = false.
Proof.
  unfold status_value. destruct (_status r) as [n|]; simpl.
  - destruct (n =? 0) eqn:E; simpl; [by destruct (truthy _ && _)|exact E].
  - by destruct (truthy _ && _).
Qed.

(** ** Body resolution and content type synthesis *)

Section Resolution.

Context `{Platform}.
Variable s : State.

Let b := _body (this s).

(** Rule 1: a primitive is turned into text and encoded; the type is
    inferred from the text where there is none. *)
Lemma getBody_primitive :
  _writable (this s) = true ->
  includes BODY_TYPES (typeof b) = true ->
  getBody s =
  (Normal (JUint8Array (TextEncoder_encode (String_ b))),
   mkState
     (with_type
        (Some (type_or (_type (this s))
                 (if isHtml (String_ b) then "html" else "text/plain")))
        (this s))
     (store s)).
Proof.
  intros W K. unfold getBody, body, type, bind at 1, read at 1.
  cbn beta iota. fold b. rewrite K.
  unfold bind, read. cbn beta iota.
  by rewrite (set_type_writable s _ W).
Qed.

(** Rule 2: bytes and readers pass through. *)
Lemma getBody_passthrough :
  includes BODY_TYPES (typeof b) = false ->
  instanceof_Uint8Array b = true ∨ isReader b = Normal true ->
  getBody s = (Normal b, s).
Proof.
  intros K P. unfold getBody, body, bind at 1, read at 1.
  cbn beta iota. fold b. rewrite K.
  unfold bind, ret, lift.
  destruct (instanceof_Uint8Array b) eqn:I; [reflexivity|].
  destruct P as [P | ->]; [discriminate | reflexivity].
Qed.

(** Rule 3: any other object is serialised; the type is ["json"] where
    there is none. *)
Lemma getBody_structured (text : option string) :
  _writable (this s) = true ->
  includes BODY_TYPES (typeof b) = false ->
  instanceof_Uint8Array b = false ->
  isReader b = Normal false ->
  truthy b = true ->
  typeof b = "object" ->
  JSON_stringify b = Normal text ->
  getBody s =
  (Normal (JUint8Array (encode_optional text)),
   mkState (with_type (Some (type_or (_type (this s)) "json")) (this s))
           (store s)).
Proof.
  intros W K I R T O J. unfold getBody, body, type, bind at 1, read at 1.
  cbn beta iota. fold b. rewrite K, I, T, O.
  unfold bind, lift, read. rewrite R. cbn beta iota.
  rewrite String.eqb_refl. cbn [andb]. rewrite J. cbn beta iota.
  by rewrite (set_type_writable s _ W).
Qed.

(** Rule 3, when serialisation throws: the error goes through and nothing
    was assigned. *)
Lemma getBody_structured_throws (e : JsError) :
  includes BODY_TYPES (typeof b) = false ->
  instanceof_Uint8Array b = false ->
  isReader b = Normal false ->
  truthy b = true ->
  typeof b = "object" ->
  JSON_stringify b = Throw e ->
  getBody s = (Throw e, s).
Proof.
  intros K I R T O J. unfold getBody, body, type, bind at 1, read at 1.
  cbn beta iota. fold b. rewrite K, I, T, O.
  unfold bind, lift, read. rewrite R. cbn beta iota.
  rewrite String.eqb_refl. cbn [andb]. by rewrite J.
Qed.

(** Rule 4: a body that is set and is none of these cannot be converted. *)
Lemma getBody_unconvertible :
  includes BODY_TYPES (typeof b) = false ->
  instanceof_Uint8Array b = false ->
  isReader b = Normal false ->
  truthy b = true ->
  String.eqb (typeof b) "object" = false ->
  getBody s = (Throw couldNotConvert, s).
Proof.
  intros K I R T O. unfold getBody, body, bind at 1, read at 1.
  cbn beta iota. fold b. rewrite K, I, T, O.
  unfold bind, lift. by rewrite R.
Qed.

Lemma getBody_unconvertible_body :
  unconvertible b = true -> getBody s = (Throw couldNotConvert, s).
Proof.
  unfold unconvertible. intros U.
  repeat (apply andb_true_iff in U as [U ?]).
  apply getBody_unconvertible; try by apply negb_true_iff.
  - by destruct (isReader b) as [[]|].
  - done.
Qed.

(** Rule 5: no body, no result. *)
Lemma getBody_absent : b = JUndefined -> getBody s = (Normal JUndefined, s).
Proof.
  intros E. unfold getBody, body, bind at 1, read at 1.
  cbn beta iota. fold b. by rewrite E.
Qed.

(** [null] is stopped by the reader guard. *)
Lemma getBody_null : b = JNull -> ∃ e, getBody s = (Throw e, s).
Proof.
  intros E. unfold getBody, body, bind at 1, read at 1.
  cbn beta iota. fold b. rewrite E. by eexists.
Qed.

(** Whatever the body, resolution touches the type alone, and nothing
    when it throws. *)
Lemma getBody_effect :
  ∃ c s', getBody s = (c, s') ∧
          store s' = store s ∧ _body (this s') = b ∧
          (s' = s ∨ ∃ t, _writable (this s) = true ∧
                         this s' = with_type (Some t) (this s)) ∧
          (∀ e, c = Throw e -> s' = s).
Proof.
  pose proof (set_type_writable s) as Hw.
  pose proof (set_type_frozen s) as Hf.
  unfold getBody, body, type, bind at 1, read at 1. cbn beta iota. fold b.
  destruct (includes BODY_TYPES (typeof b)).
  - unfold bind, read. cbn beta iota.
    destruct (_writable (this s)) eqn:W.
    + rewrite (Hw _ eq_refl). unfold ret.
      do 2 eexists. split; [reflexivity|]. repeat split; eauto; by intros ? [=].
    + rewrite (Hf _ eq_refl).
      do 2 eexists. split; [reflexivity|]. repeat split; eauto.
  - unfold bind at 1.
    assert (∃ c, (if instanceof_Uint8Array b then ret true
                  else lift (isReader b)) s = (c, s)) as [c ->]
      by (destruct (instanceof_Uint8Array b); unfold ret, lift; eauto).
    destruct c as [[]|e].
    + do 2 eexists. split; [reflexivity|]. repeat split; eauto; by intros ? [=].
    + destruct (truthy b && String.eqb (typeof b) "object").
      * unfold bind at 1, lift.
        destruct (JSON_stringify b) as [text|e'];
          [|do 2 eexists; (split; [reflexivity|]); repeat split; eauto].
        unfold bind, read. cbn beta iota.
        destruct (_writable (this s)) eqn:W.
        -- rewrite (Hw _ eq_refl). unfold ret.
           do 2 eexists. split; [reflexivity|].
           repeat split; eauto; by intros ? [=].
        -- rewrite (Hf _ eq_refl).
           do 2 eexists. split; [reflexivity|]. repeat split; eauto.
      * destruct (truthy b); unfold throw, ret;
          do 2 eexists; (split; [reflexivity|]); repeat split; eauto;
          by intros ? [=].
    + do 2 eexists. split; [reflexivity|]. repeat split; eauto.
Qed.

(** Content type synthesis returns, and touches the instance's [Headers]
    object alone. *)
Lemma setContentType_effect :
  ∃ s', setContentType s = (Normal tt, s') ∧
        this s' = this s ∧
        payload_objects (store s') = payload_objects (store s) ∧
        ∀ l, l ≠ _headers (this s) ->
             headers_at (store s') l = headers_at (store s) l.
Proof.
  unfold setContentType, type, headers. run.
  destruct (str_truthy _); [|by eexists].
  destruct (contentType _) as [c|]; [|by eexists].
  destruct (str_truthy c); [|by eexists].
  destruct (negb _); [|by eexists].
  eexists. split; [reflexivity|]. repeat split.
  intros l Hne. cbn. by rewrite headers_at_update_ne.
Qed.

(** With an unset or empty type, synthesis does nothing. *)
Lemma setContentType_no_type :
  str_truthy (default EmptyString (_type (this s))) = false ->
  setContentType s = (Normal tt, s).
Proof. intros T. unfold setContentType, type. run. by rewrite T. Qed.

End Resolution.

(** ** Terminal conversion *)

Section Conversion.

Context `{Platform}.

(** A later call returns the stored reference and does nothing else. *)
Lemma toServerResponse_memo (s : State) (p : loc) :
  _serverResponse (this s) = Some p -> toServerResponse s = (Normal p, s).
Proof. intros E. unfold toServerResponse. run. by rewrite E. Qed.

(** A first call whose body resolution throws leaves everything as it was. *)
Lemma toServerResponse_throws (s s1 : State) (e : JsError) :
  _serverResponse (this s) = None ->
  getBody s = (Throw e, s1) ->
  toServerResponse s = (Throw e, s).
Proof.
  intros E G. destruct (getBody_effect s) as (c & s' & G' & _ & _ & _ & Hs).
  rewrite G in G'. injection G' as <- <-.
  rewrite (Hs e eq_refl) in G.
  unfold toServerResponse, bind at 1, read at 1. cbn beta iota.
  rewrite E. unfold bind at 1. by rewrite G.
Qed.

(** A first call whose body resolution returns: the final state. *)
Lemma toServerResponse_first (s s1 : State) (body : JsValue) :
  _serverResponse (this s) = None ->
  getBody s = (Normal body, s1) ->
  let s2 := (setContentType s1).2 in
  let h := _headers (this s1) in
  let p := fresh (dom (payload_objects (store s))) in
  let payload :=
    mkServerResponse
      (default (if truthy body then Status.OK else Status.NotFound)
               (_status (this s)))
      h body in
  let st3 :=
    if needs_length body (headers_at (store s2) h)
    then update_headers h (fun c => Headers.append c "Content-Length" "0")
                        (store s2)
    else store s2 in
  toServerResponse s =
  (Normal p,
   mkState (with_serverResponse (Some p) (with_writable false (this s1)))
           (mkStore (headers_objects st3)
                    (<[p := payload]> (payload_objects (store s))))).
Proof.
  intros E G.
  destruct (getBody_effect s) as (c & s' & G' & Hst & _ & Hth & _).
  rewrite G in G'. injection G' as <- <-.
  destruct (setContentType_effect s1) as (s2 & C & Hth2 & Hpl & _).
  assert (_status (this s1) = _status (this s)) as Hstatus
    by (destruct Hth as [-> | (t & _ & ->)]; reflexivity).
  cbn zeta. rewrite C. cbn [snd].
  unfold toServerResponse, bind at 1, read at 1. cbn beta iota.
  rewrite E. unfold bind at 1. rewrite G.
  unfold bind at 1. rewrite C.
  unfold headers, needs_length. run. rewrite Hth2.
  destruct (negb _); cbn; by rewrite ?Hth2, ?Hpl, ?Hst, ?Hstatus.
Qed.

(** A call that returns leaves the instance frozen, with the reference
    it returned as its payload. *)
Lemma toServerResponse_returns (s s' : State) (p : loc) :
  consistent s = true ->
  toServerResponse s = (Normal p, s') ->
  _serverResponse (this s') = Some p ∧ _writable (this s') = false ∧
  consistent s' = true.
Proof.
  intros C T. destruct (_serverResponse (this s)) as [q|] eqn:E.
  - rewrite (toServerResponse_memo s q E) in T. injection T as <- <-.
    repeat split; try done.
    unfold consistent in C. rewrite E in C.
    apply andb_true_iff in C as [C _].
    apply andb_true_iff in C as [C _]. by apply negb_true_iff.
  - destruct (getBody_effect s) as (c & s1 & G & _ & Hb & _ & _).
    destruct c as [body|e].
    + rewrite (toServerResponse_first s s1 body E G) in T.
      injection T as <- <-. repeat split.
      unfold consistent. cbn. rewrite lookup_insert_eq, Nat.eqb_refl, Hb.
      destruct (unconvertible (_body (this s))) eqn:U; [|done].
      by rewrite (getBody_unconvertible_body s U) in G.
    + by rewrite (toServerResponse_throws s s1 e E G) in T.
Qed.

(** A call that throws leaves the state as it was. *)
Lemma toServerResponse_atomic (s s' : State) (e : JsError) :
  toServerResponse s = (Throw e, s') -> s' = s.
Proof.
  intros T. destruct (_serverResponse (this s)) as [q|] eqn:E.
  - by rewrite (toServerResponse_memo s q E) in T.
  - destruct (getBody_effect s) as (c & s1 & G & _ & _ & _ & _).
    destruct c as [body|e'].
    + by rewrite (toServerResponse_first s s1 body E G) in T.
    + rewrite (toServerResponse_throws s s1 e' E G) in T. congruence.
Qed.

End Conversion.

(** ** The redirect helper *)

Section Redirecting.

Context `{Platform}.
Variables (s : State) (url : RedirectTarget) (alt : option StringOrURL).

Let target := redirect_target (_request (this s)) url alt.

(** The store once line 168 has run. *)
Let located : Store :=
  update_headers (_headers (this s))
    (fun h => Headers.set h "Location" (encodeUrl target)) (store s).

(** On a frozen instance the [Location] entry is written, then the first
    guarded setter throws. *)
Lemma redirect_frozen :
  _writable (this s) = false ->
  redirect url alt s = (Throw notWritable, mkState (this s) located).
Proof.
  intros W. unfold redirect, headers, status.
  unfold bind at 1, read at 1. cbn beta iota.
  unfold bind at 1, read at 1. cbn beta iota.
  unfold bind at 1, headers_set. cbn beta iota.
  unfold bind at 1, read at 1. cbn beta iota.
  fold target. fold located. cbn [this].
  rewrite status_value_nonzero. cbn [orb].
  unfold bind at 1.
  destruct (negb (isRedirectStatus _)).
  - by rewrite set_status_frozen.
  - unfold ret. destruct (req_accepts _ _); unfold bind;
      by rewrite set_type_frozen.
Qed.

(** On a writable instance every step goes through. *)
Lemma redirect_writable :
  _writable (this s) = true ->
  let forced := negb (isRedirectStatus (status_value (this s))) in
  let r1 := if forced then with_status (Some Status.Found) (this s)
            else this s in
  let html := req_accepts (_request (this s)) "html" in
  let type' := if html then "text/html; charset=utf-8"
               else "text/plain; charset=utf-8" in
  let body' :=
    if html
    then "Redirecting to <a href=" ++ dquote ++ encodeURI target ++ dquote
         ++ ">" ++ encodeURI target ++ "</a>."
    else "Redirecting to " ++ target ++ "." in
  redirect url alt s =
  (Normal tt,
   mkState (with_body (JString body') (with_type (Some type') r1)) located).
Proof.
  intros W. cbn zeta. unfold redirect, headers, status.
  unfold bind at 1, read at 1. cbn beta iota.
  unfold bind at 1, read at 1. cbn beta iota.
  unfold bind at 1, headers_set. cbn beta iota.
  unfold bind at 1, read at 1. cbn beta iota.
  fold target. fold located. cbn [this].
  rewrite status_value_nonzero. cbn [orb].
  unfold bind at 1.
  destruct (negb (isRedirectStatus _)).
  - rewrite set_status_writable by exact W.
    destruct (req_accepts _ _); unfold bind;
      rewrite set_type_writable by exact W;
      by rewrite set_body_writable by exact W.
  - unfold ret. destruct (req_accepts _ _); unfold bind;
      rewrite set_type_writable by exact W;
      by rewrite set_body_writable by exact W.
Qed.

End Redirecting.

(** ** The two phases along a sequence of calls *)

Section Phases.

Context `{Platform}.

(** A new instance is writable and has no payload. *)
Lemma constructor_consistent (request : Request) (st : Store) :
  consistent (constructor request st) = true.
Proof. reflexivity. Qed.

(** On a frozen instance no call changes a field or a payload object:
    only the content of [Headers] objects can still change. *)
Lemma after_frozen (c : Call) (s : State) :
  _writable (this s) = false ->
  is_Some (_serverResponse (this s)) ->
  this (after c s) = this s ∧
  payload_objects (store (after c s)) = payload_objects (store s).
Proof.
  intros W [p E]. unfold after. destruct c; cbn [call].
  - by rewrite set_body_frozen.
  - by rewrite set_headers_frozen.
  - by rewrite set_status_frozen.
  - by rewrite set_type_frozen.
  - done.
  - done.
  - by rewrite redirect_frozen.
  - unfold forget, bind. by rewrite (toServerResponse_memo s p E).
Qed.

Lemma consistent_frozen (s : State) (p : loc) :
  consistent s = true ->
  _serverResponse (this s) = Some p ->
  _writable (this s) = false.
Proof.
  unfold consistent. intros C E. rewrite E in C.
  apply andb_true_iff in C as [C _].
  apply andb_true_iff in C as [C _]. by apply negb_true_iff.
Qed.

Lemma consistent_writable (s : State) :
  consistent s = true ->
  _serverResponse (this s) = None ->
  _writable (this s) = true.
Proof. unfold consistent. intros C E. by rewrite E in C. Qed.

(** Every call keeps the instance in one of the two phases. *)
Lemma after_consistent (c : Call) (s : State) :
  consistent s = true -> consistent (after c s) = true.
Proof.
  intros C. destruct (_serverResponse (this s)) as [p|] eqn:E.
  - pose proof (consistent_frozen s p C E) as W.
    destruct (after_frozen c s W) as [Ht Hp]; [by eexists|].
    unfold consistent in *. by rewrite Ht, Hp.
  - pose proof (consistent_writable s C E) as W.
    unfold after. destruct c; cbn [call].
    + rewrite set_body_writable by exact W.
      unfold consistent; cbn. by rewrite E.
    + rewrite set_headers_writable by exact W.
      unfold consistent; cbn. by rewrite E.
    + rewrite set_status_writable by exact W.
      unfold consistent; cbn. by rewrite E.
    + rewrite set_type_writable by exact W.
      unfold consistent; cbn. by rewrite E.
    + unfold consistent, bind, headers, read, headers_append; cbn.
      by rewrite E.
    + unfold consistent, bind, headers, read, headers_set; cbn.
      by rewrite E.
    + rewrite redirect_writable by exact W. unfold consistent; cbn.
      destruct (negb _); cbn; by rewrite E.
    + unfold forget, bind.
      destruct (toServerResponse s) as [[q|e] s'] eqn:T; cbn.
      * by destruct (toServerResponse_returns s s' q C T) as (_ & _ & ?).
      * by rewrite (toServerResponse_atomic s s' e T).
Qed.

Lemma after_all_consistent (cs : list Call) (s : State) :
  consistent s = true -> consistent (after_all cs s) = true.
Proof.
  revert s. induction cs as [|c cs IH]; intros s C; [exact C|].
  change (after_all (c :: cs) s) with (after_all cs (after c s)).
  apply IH. by apply after_consistent.
Qed.

(** Once frozen, frozen for good: the fields and the payload objects stay
    what they were, whatever is called. *)
Lemma after_all_frozen (cs : list Call) (s : State) :
  _writable (this s) = false ->
  is_Some (_serverResponse (this s)) ->
  this (after_all cs s) = this s ∧
  payload_objects (store (after_all cs s)) = payload_objects (store s).
Proof.
  revert s. induction cs as [|c cs IH]; intros s W E; [done|].
  change (after_all (c :: cs) s) with (after_all cs (after c s)).
  destruct (after_frozen c s W E) as [Ht Hp].
  destruct (IH (after c s)) as [Ht' Hp']; [by rewrite Ht..|].
  by rewrite Ht', Hp', Ht, Hp.
Qed.

(** Every instance that the middleware can have in hand is in one of
    the two phases. *)
Lemma reachable_consistent (request : Request) (st : Store) (cs : list Call) :
  consistent (after_all cs (constructor request st)) = true.
Proof. apply after_all_consistent, constructor_consistent. Qed.

End Phases.

(** * The contracts of the class *)

Section Contracts.

Context `{Platform}.

(** C1.  The [status] getter on a body that is set to a falsy primitive.
    A new instance whose body is the empty string, and on which no status
    was set, reads as 404 (Not Found), although its body is set and is
    neither absent nor null; the same instance, converted, is sent with
    status 200 (OK).  The getter therefore does not return what the
    documentation of lines 91-95 promises, the status the response would
    have if it were sent now. *)
Theorem status_of_empty_string_body (request : Request) (st : Store) :
  let s := after (SetBody (JString EmptyString)) (constructor request st) in
  _body (this s) = JString EmptyString ∧
  _status (this s) = None ∧
  status s = (Normal Status.NotFound, s) ∧
  ∃ p s' payload,
    toServerResponse s = (Normal p, s') ∧
    payload_objects (store s') !! p = Some payload ∧
    sr_status payload = Status.OK.
Proof.
  cbn zeta. unfold after. cbn [call].
  rewrite set_body_writable by reflexivity. cbn [snd].
  repeat split.
  do 3 eexists. split.
  - apply toServerResponse_first; [reflexivity|].
    by apply getBody_primitive.
  - cbn. by rewrite lookup_insert_eq.
Qed.

(** C2.  Once [toServerResponse] has returned, whatever is called on the
    instance afterwards, [writable] reads false and every assignment to
    [body], [headers], [status] or [type] throws the error "The response
    is not writable." and changes nothing. *)
Theorem frozen_after_conversion (s s1 : State) (p : loc) (cs : list Call) :
  consistent s = true ->
  toServerResponse s = (Normal p, s1) ->
  let s2 := after_all cs s1 in
  writable s2 = (Normal false, s2) ∧
  (∀ value, set_body value s2 = (Throw notWritable, s2)) ∧
  (∀ value, set_headers value s2 = (Throw notWritable, s2)) ∧
  (∀ value, set_status value s2 = (Throw notWritable, s2)) ∧
  (∀ value, set_type value s2 = (Throw notWritable, s2)).
Proof.
  intros C T s2.
  destruct (toServerResponse_returns s s1 p C T) as (E & W & _).
  destruct (after_all_frozen cs s1 W) as [Ht _]; [by eexists|].
  assert (_writable (this s2) = false) as W2 by (unfold s2; by rewrite Ht).
  split; [unfold writable, read; by rewrite W2|].
  repeat split; intros value.
  - by apply set_body_frozen.
  - by apply set_headers_frozen.
  - by apply set_status_frozen.
  - by apply set_type_frozen.
Qed.

(** C3.  Once [toServerResponse] has returned a payload, every later call,
    whatever was called in between, returns the same reference and leaves
    the state untouched (nothing is resolved, synthesised or computed
    again); the reference the instance keeps is never replaced, and the
    payload object behind it keeps its status, body and headers
    reference. *)
Theorem conversion_memoised (s s1 : State) (p : loc) (cs : list Call) :
  consistent s = true ->
  toServerResponse s = (Normal p, s1) ->
  let s2 := after_all cs s1 in
  toServerResponse s2 = (Normal p, s2) ∧
  _serverResponse (this s2) = Some p ∧
  is_Some (payload_objects (store s1) !! p) ∧
  payload_objects (store s2) !! p = payload_objects (store s1) !! p.
Proof.
  intros C T s2.
  destruct (toServerResponse_returns s s1 p C T) as (E & W & C1).
  destruct (after_all_frozen cs s1 W) as [Ht Hp]; [by eexists|].
  assert (_serverResponse (this s2) = Some p) as E2
    by (unfold s2; by rewrite Ht).
  repeat split.
  - by apply toServerResponse_memo.
  - exact E2.
  - unfold consistent in C1. rewrite E in C1.
    apply andb_true_iff in C1 as [_ C1].
    by destruct (payload_objects (store s1) !! p).
  - unfold s2. by rewrite Hp.
Qed.

(** C4.  On an instance whose body is set and is neither a primitive, nor
    bytes, nor a reader, nor any other object, [toServerResponse] throws
    the conversion error and changes nothing: the instance has no payload
    and is still writable, so that a body can be assigned and the
    conversion tried again. *)
Theorem unconvertible_body_throws (s : State) :
  consistent s = true ->
  unconvertible (_body (this s)) = true ->
  toServerResponse s = (Throw couldNotConvert, s) ∧
  _serverResponse (this s) = None ∧
  _writable (this s) = true ∧
  ∀ value, ∃ s', set_body value s = (Normal tt, s') ∧
                 _body (this s') = value ∧ consistent s' = true.
Proof.
  intros C U.
  assert (_serverResponse (this s) = None) as E.
  { destruct (_serverResponse (this s)) as [p|] eqn:E; [|done].
    unfold consistent in C. rewrite E, U in C.
    by rewrite andb_false_r in C. }
  pose proof (consistent_writable s C E) as W.
  repeat split; try done.
  - apply (toServerResponse_throws s s); [exact E|].
    by apply getBody_unconvertible_body.
  - intros value. eexists. split; [by apply set_body_writable|].
    split; [reflexivity|]. unfold consistent. cbn. by rewrite E.
Qed.

(** C5.  On a writable instance whose body is a string, number, big
    integer, boolean or symbol, conversion returns a payload whose body is
    the encoded text of the value; rule 1 of [#getBody] decides this
    before any other rule is looked at.  If no type was set, the type
    becomes "html" when [isHtml] accepts the text and "text/plain"
    otherwise. *)
Theorem primitive_body_conversion (s : State) :
  consistent s = true ->
  _serverResponse (this s) = None ->
  includes BODY_TYPES (typeof (_body (this s))) = true ->
  let text := String_ (_body (this s)) in
  let inferred := if isHtml text then "html" else "text/plain" in
  getBody s =
  (Normal (JUint8Array (TextEncoder_encode text)),
   mkState (with_type (Some (type_or (_type (this s)) inferred)) (this s))
           (store s)) ∧
  ∃ p s' payload,
    toServerResponse s = (Normal p, s') ∧
    payload_objects (store s') !! p = Some payload ∧
    sr_body payload = JUint8Array (TextEncoder_encode text) ∧
    _type (this s') = Some (type_or (_type (this s)) inferred) ∧
    (_type (this s) = None -> _type (this s') = Some inferred).
Proof.
  intros C E K text inferred.
  pose proof (consistent_writable s C E) as W.
  pose proof (getBody_primitive s W K) as G. fold text inferred in G.
  split; [exact G|].
  do 3 eexists. split; [exact (toServerResponse_first s _ _ E G)|].
  cbn. rewrite lookup_insert_eq. repeat split.
  by intros ->.
Qed.

(** C6 (amended).  On a writable instance whose body is an object that is
    neither bytes nor a reader: when [JSON.stringify] returns for the body,
    conversion returns a payload whose body is the encoded JSON text (the
    encoded empty string where [JSON.stringify] returns [undefined]); the
    type becomes "json" when it was unset or the empty string, and a type
    that was set to a non-empty string is kept.  When [JSON.stringify]
    throws, conversion throws that error and changes nothing. *)
Theorem structured_body_conversion (s : State) :
  consistent s = true ->
  _serverResponse (this s) = None ->
  truthy (_body (this s)) = true ->
  typeof (_body (this s)) = "object" ->
  instanceof_Uint8Array (_body (this s)) = false ->
  isReader (_body (this s)) = Normal false ->
  (∀ text, JSON_stringify (_body (this s)) = Normal text ->
     ∃ p s' payload,
       toServerResponse s = (Normal p, s') ∧
       payload_objects (store s') !! p = Some payload ∧
       sr_body payload = JUint8Array (encode_optional text) ∧
       (_type (this s) = None ∨ _type (this s) = Some EmptyString ->
        _type (this s') = Some "json") ∧
       (∀ t, _type (this s) = Some t -> t ≠ EmptyString ->
             _type (this s') = Some t)) ∧
  (∀ e, JSON_stringify (_body (this s)) = Throw e ->
     toServerResponse s = (Throw e, s) ∧
     _serverResponse (this s) = None ∧ _writable (this s) = true).
Proof.
  intros C E T O I R.
  pose proof (consistent_writable s C E) as W.
  assert (includes BODY_TYPES (typeof (_body (this s))) = false) as K
    by (by rewrite O).
  split.
  - intros text J.
    pose proof (getBody_structured s text W K I R T O J) as G.
    do 3 eexists. split; [exact (toServerResponse_first s _ _ E G)|].
    cbn. rewrite lookup_insert_eq. repeat split.
    + by intros [-> | ->].
    + intros t -> Ht. by destruct t.
  - intros e J. split; [|done].
    apply (toServerResponse_throws s s); [exact E|].
    exact (getBody_structured_throws s e K I R T O J).
Qed.

(** What body resolution returns is absent or is an object. *)
Lemma getBody_result (s s1 : State) (result : JsValue) :
  getBody s = (Normal result, s1) ->
  result = JUndefined ∨ truthy result = true.
Proof.
  unfold getBody, body, type, bind at 1, read at 1. cbn beta iota.
  destruct (includes BODY_TYPES _).
  - unfold bind, read. cbn beta iota.
    destruct (set_type _ _) as [[[]|] ?]; [|done].
    unfold ret. intros [= <- <-]. by right.
  - unfold bind at 1.
    destruct (instanceof_Uint8Array (_body (this s))) eqn:I.
    + unfold ret. intros [= <- <-]. right. by destruct (_body (this s)).
    + unfold lift. destruct (isReader _) as [[]|] eqn:R; [| |done].
      * unfold ret. intros [= <- <-]. right.
        unfold isReader in R. by destruct (_body (this s)).
      * destruct (truthy _ && _).
        -- unfold bind at 1, lift.
           destruct (JSON_stringify _) as [text|]; [|done].
           unfold bind, read. cbn beta iota.
           destruct (set_type _ _) as [[[]|] ?]; [|done].
           unfold ret. intros [= <- <-]. by right.
        -- destruct (truthy _); [done|].
           unfold ret. intros [= <- <-]. by left.
Qed.

(** C7.  When body resolution returns [body] and content type synthesis
    has run, the [Headers] object of the payload is the instance's own.
    If the resolved body is absent and that object has neither a
    Content-Type nor a Content-Length entry at that point, conversion
    appends the entry Content-Length: 0 to it; if the body is present or
    one of the two entries exists, conversion appends nothing. *)
Theorem empty_body_marker (s s1 : State) (body : JsValue) :
  _serverResponse (this s) = None ->
  getBody s = (Normal body, s1) ->
  let h := current_headers (setContentType s1).2 in
  ∃ p s' payload,
    toServerResponse s = (Normal p, s') ∧
    payload_objects (store s') !! p = Some payload ∧
    sr_headers payload = _headers (this s') ∧
    (truthy body = false ->
     Headers.has h "Content-Type" = false ->
     Headers.has h "Content-Length" = false ->
     headers_at (store s') (sr_headers payload) =
     (h ++ [("content-length", "0")])%list) ∧
    (truthy body = true ∨ Headers.has h "Content-Type" = true
     ∨ Headers.has h "Content-Length" = true ->
     headers_at (store s') (sr_headers payload) = h).
Proof.
  intros E G h.
  destruct (setContentType_effect s1) as (s2 & C & Hth2 & _ & _).
  assert (h = headers_at (store s2) (_headers (this s1))) as Hh
    by (unfold h, current_headers; rewrite C; cbn [snd]; by rewrite Hth2).
  pose proof (toServerResponse_first s s1 body E G) as T.
  cbn zeta in T. rewrite C in T. cbn [snd] in T. rewrite <- Hh in T.
  do 3 eexists. split; [exact T|].
  cbn [store this payload_objects]. rewrite lookup_insert_eq.
  split; [reflexivity|]. split; [reflexivity|].
  cbn [sr_headers]. split.
  - intros B T' L. unfold needs_length. rewrite B, T', L. cbn [orb negb].
    unfold headers_at at 1. cbn [headers_objects update_headers].
    rewrite lookup_insert_eq. cbn [default]. by rewrite <- Hh.
  - intros K. unfold needs_length.
    replace (truthy body || Headers.has h "Content-Type"
             || Headers.has h "Content-Length") with true.
    + cbn [negb]. by rewrite Hh.
    + symmetry. destruct K as [-> | [-> | ->]];
        by rewrite ?orb_true_r.
Qed.

(** The same seen from before the call: on an instance without payload,
    without body and without type, whose headers have neither entry, the
    headers after conversion are those before with Content-Length: 0 at the
    end.  With a type that [contentType] resolves, content type synthesis
    adds a Content-Type entry first, and no Content-Length follows. *)
Lemma conversion_of_empty_response (s : State) :
  _serverResponse (this s) = None ->
  _body (this s) = JUndefined ->
  str_truthy (default EmptyString (_type (this s))) = false ->
  needs_length JUndefined (current_headers s) = true ->
  ∃ p s',
    toServerResponse s = (Normal p, s') ∧
    current_headers s' =
    (current_headers s ++ [("content-length", "0")])%list.
Proof.
  intros E B T N.
  pose proof (toServerResponse_first s s JUndefined E (getBody_absent s B)) as R.
  cbn zeta in R. rewrite (setContentType_no_type s T) in R. cbn [snd] in R.
  unfold current_headers in N. rewrite N in R.
  do 2 eexists. split; [exact R|].
  unfold current_headers. cbn [this store with_serverResponse with_writable
                               _headers].
  unfold headers_at at 1. cbn [headers_objects update_headers].
  by rewrite lookup_insert_eq.
Qed.

(** C8.  On a writable instance whose request has no Referrer header,
    [redirect(REDIRECT_BACK)] without alternative returns, and afterwards
    the Location header is the escaped form of "/".  If the status the
    getter showed was not a redirect status, the status is 302 (Found)
    afterwards; this is the case when no status was set, as the getter
    then shows 200 or 404, provided [isRedirectStatus] takes neither for
    a redirect status. *)
Theorem redirect_back_without_referrer (s : State) :
  _writable (this s) = true ->
  Headers.get (req_headers (_request (this s))) "Referrer" = None ->
  ∃ s',
    redirect REDIRECT_BACK None s = (Normal tt, s') ∧
    Headers.get (current_headers s') "Location" = Some (encodeUrl "/") ∧
    (isRedirectStatus (status_value (this s)) = false ->
     _status (this s') = Some Status.Found) ∧
    (_status (this s) = None ->
     isRedirectStatus Status.OK = false ->
     isRedirectStatus Status.NotFound = false ->
     _status (this s') = Some Status.Found).
Proof.
  intros W R. eexists. split; [by apply redirect_writable|].
  assert (redirect_target (_request (this s)) REDIRECT_BACK None = "/") as Ht
    by (unfold redirect_target; by rewrite R).
  rewrite Ht.
  assert (∀ r, _headers (with_body (JString
                  (if req_accepts (_request (this s)) "html"
                   then "Redirecting to <a href=" ++ dquote ++ encodeURI "/"
                        ++ dquote ++ ">" ++ encodeURI "/" ++ "</a>."
                   else "Redirecting to " ++ "/" ++ "."))
                (with_type (Some (if req_accepts (_request (this s)) "html"
                                  then "text/html; charset=utf-8"
                                  else "text/plain; charset=utf-8")) r))
              = _headers r) as Hhd by done.
  split; [|split].
  - unfold current_headers. cbn [this store]. rewrite Hhd.
    replace (_headers (if negb (isRedirectStatus (status_value (this s)))
                       then with_status (Some Status.Found) (this s)
                       else this s)) with (_headers (this s))
      by (by destruct (negb _)).
    rewrite headers_at_update. apply get_set.
  - intros N. cbn [this]. by rewrite N.
  - intros N Hok Hnf. cbn [this].
    assert (isRedirectStatus (status_value (this s)) = false) as ->; [|done].
    unfold status_value. rewrite N. cbn.
    by destruct (truthy _ && _).
Qed.

(** C9.  On a writable instance [redirect] returns, and body and type
    follow what the request accepts: when it accepts html, the type is
    "text/html; charset=utf-8" and the body is the message with an anchor
    whose reference and text are the target escaped by [encodeURI];
    otherwise the type is "text/plain; charset=utf-8" and the body is the
    plain message with the target. *)
Theorem redirect_negotiates_body (s : State) (url : RedirectTarget)
    (alt : option StringOrURL) :
  _writable (this s) = true ->
  let target := redirect_target (_request (this s)) url alt in
  ∃ s',
    redirect url alt s = (Normal tt, s') ∧
    if req_accepts (_request (this s)) "html" then
      _type (this s') = Some "text/html; charset=utf-8" ∧
      _body (this s') =
      JString ("Redirecting to <a href=" ++ dquote ++ encodeURI target
               ++ dquote ++ ">" ++ encodeURI target ++ "</a>.")
    else
      _type (this s') = Some "text/plain; charset=utf-8" ∧
      _body (this s') = JString ("Redirecting to " ++ target ++ ".").
Proof.
  intros W target. eexists. split; [by apply redirect_writable|].
  fold target. cbn [this].
  by destruct (req_accepts _ _).
Qed.

(** C10.  On an instance that was converted, [redirect] throws the error
    "The response is not writable.", and no field of the instance and no
    payload object has changed then; but the [Headers] object, which the
    payload refers to as well, has had its Location entry set to the
    escaped target before the throw. *)
Theorem redirect_after_conversion (s : State) (p : loc)
    (url : RedirectTarget) (alt : option StringOrURL) :
  consistent s = true ->
  _serverResponse (this s) = Some p ->
  let target := redirect_target (_request (this s)) url alt in
  ∃ s' payload,
    redirect url alt s = (Throw notWritable, s') ∧
    this s' = this s ∧
    payload_objects (store s') = payload_objects (store s) ∧
    payload_objects (store s') !! p = Some payload ∧
    sr_headers payload = _headers (this s) ∧
    headers_at (store s') (sr_headers payload) =
    Headers.set (headers_at (store s) (sr_headers payload)) "Location"
                (encodeUrl target) ∧
    Headers.get (headers_at (store s') (sr_headers payload)) "Location" =
    Some (encodeUrl target).
Proof.
  intros C E target.
  pose proof (consistent_frozen s p C E) as W.
  unfold consistent in C. rewrite E in C.
  apply andb_true_iff in C as [_ C].
  destruct (payload_objects (store s) !! p) as [payload|] eqn:L; [|done].
  apply Nat.eqb_eq in C.
  exists (mkState (this s)
            (update_headers (_headers (this s))
               (fun h => Headers.set h "Location" (encodeUrl target))
               (store s))), payload.
  split; [by apply redirect_frozen|].
  cbn [this store]. rewrite C, headers_at_update.
  repeat split; try done. apply get_set.
Qed.

End Contracts.

(** * Further properties of the class *)

(** ** The reader guard *)

(** [typeof] is ["function"] on functions alone. *)
Lemma typeof_function (v : JsValue) :
  String.eqb (typeof v) "function" = true ↔ ∃ name, v = JFunction name.
Proof.
  split.
  - destruct v; cbn; try discriminate. by eexists.
  - by intros [name ->].
Qed.

Lemma isReader_true_inv (value : JsValue) :
  isReader value = Normal true ->
  ∃ props name,
    value = JObject props ∧ prop_lookup props "read" = Some (JFunction name).
Proof.
  destruct value as [| | | | | | | | | |props]; cbn; try discriminate.
  destruct (prop_lookup props "read") as [v|] eqn:L; cbn; [|discriminate].
  intros [= Hf]. apply typeof_function in Hf as [name ->]. eauto.
Qed.

Lemma isReader_throw_inv (value : JsValue) (e : JsError) :
  isReader value = Throw e -> value = JNull.
Proof.
  intros R.
  destruct value as [| | | | | | | | | |props]; cbn in R; try discriminate.
  - reflexivity.
  - destruct (prop_lookup props "read"); cbn in R; discriminate.
Qed.

(** X1.  [isReader] accepts exactly the objects that have a property [read]
    whose value is a function. *)
Theorem isReader_accepts (value : JsValue) :
  isReader value = Normal true ↔
  ∃ props name,
    value = JObject props ∧ prop_lookup props "read" = Some (JFunction name).
Proof.
  split.
  - apply isReader_true_inv.
  - intros (props & name & -> & L). cbn. by rewrite L.
Qed.

(** X2.  [isReader] throws on [null] and on nothing else. *)
Theorem isReader_throws (value : JsValue) :
  (∃ e, isReader value = Throw e) ↔ value = JNull.
Proof.
  split.
  - intros [e R]. exact (isReader_throw_inv value e R).
  - intros ->. by eexists.
Qed.

Section Failures.

Context `{Platform}.

(** X3.  With [null] as body, conversion of an instance without payload throws
    a [TypeError] out of the reader guard and changes nothing, while the
    [status] getter reads 404 when no status was set. *)
Theorem null_body_throws (s : State) :
  _serverResponse (this s) = None ->
  _body (this s) = JNull ->
  (∃ message, toServerResponse s = (Throw (mkError TypeError_ message), s)) ∧
  (status_truthy (_status (this s)) = false ->
   status s = (Normal Status.NotFound, s)).
Proof.
  intros E B. split.
  - eexists. apply (toServerResponse_throws s s); [exact E|].
    unfold getBody, body, bind at 1, read at 1. cbn beta iota.
    rewrite B. reflexivity.
  - intros St. unfold status, read.
    by rewrite (status_absent_body (this s) St (or_intror B)).
Qed.

(** What body resolution can throw on a writable instance: the
    [TypeError] of the reader guard when the body is [null], the
    conversion error when the body is set and no rule takes it, and what
    [JSON.stringify] throws on a body that rule 3 takes. *)
Lemma getBody_throws (s s' : State) (e : JsError) :
  _writable (this s) = true ->
  getBody s = (Throw e, s') ->
  _body (this s) = JNull ∨
  (unconvertible (_body (this s)) = true ∧ e = couldNotConvert) ∨
  (structured (_body (this s)) = true ∧
   JSON_stringify (_body (this s)) = Throw e).
Proof.
  intros W. unfold getBody, body, type, bind at 1, read at 1. cbn beta iota.
  destruct (includes BODY_TYPES (typeof (_body (this s)))) eqn:K.
  - unfold bind, read. cbn beta iota.
    by rewrite (set_type_writable s _ W).
  - unfold bind at 1.
    destruct (instanceof_Uint8Array (_body (this s))) eqn:I; [done|].
    unfold lift. destruct (isReader (_body (this s))) as [[]|e'] eqn:R.
    + done.
    + destruct (truthy (_body (this s))) eqn:T; cbn [andb].
      * destruct (String.eqb (typeof (_body (this s))) "object") eqn:O.
        -- unfold bind at 1.
           destruct (JSON_stringify (_body (this s))) as [text|e''] eqn:J.
           ++ unfold bind, read. cbn beta iota.
              by rewrite (set_type_writable s _ W).
           ++ intros [= <- <-]. right; right. split; [|done].
              unfold structured. by rewrite T, O, I, R.
        -- unfold throw. intros [= <- <-]. right; left. split; [|done].
           unfold unconvertible. by rewrite T, K, I, R, O.
      * done.
    + intros _. left. exact (isReader_throw_inv _ e' R).
Qed.

(** X4.  A conversion that throws has changed nothing, and it throws for
    three kinds of body only: [null]; a body that is set and that no rule
    takes, for which the error is the conversion error; and an object that
    rule 3 takes and on which [JSON.stringify] throws, for which the error
    is the one [JSON.stringify] threw. *)
Theorem conversion_failure (s s' : State) (e : JsError) :
  consistent s = true ->
  toServerResponse s = (Throw e, s') ->
  s' = s ∧
  (_body (this s) = JNull ∨
   (unconvertible (_body (this s)) = true ∧ e = couldNotConvert) ∨
   (structured (_body (this s)) = true ∧
    JSON_stringify (_body (this s)) = Throw e)).
Proof.
  intros C T. split; [exact (toServerResponse_atomic s s' e T)|].
  destruct (_serverResponse (this s)) as [q|] eqn:E.
  - by rewrite (toServerResponse_memo s q E) in T.
  - pose proof (consistent_writable s C E) as W.
    destruct (getBody_effect s) as (c & s1 & G & _ & _ & _ & _).
    destruct c as [b|e'].
    + by rewrite (toServerResponse_first s s1 b E G) in T.
    + rewrite (toServerResponse_throws s s1 e' E G) in T.
      injection T as <-. exact (getBody_throws s s1 e' W G).
Qed.

(** X5.  Bytes and readers are handed to the payload as they are, and no type
    is inferred for them. *)
Theorem passthrough_body_conversion (s : State) :
  _serverResponse (this s) = None ->
  instanceof_Uint8Array (_body (this s)) = true
  ∨ isReader (_body (this s)) = Normal true ->
  ∃ p s' payload,
    toServerResponse s = (Normal p, s') ∧
    payload_objects (store s') !! p = Some payload ∧
    sr_body payload = _body (this s) ∧
    _type (this s') = _type (this s).
Proof.
  intros E P.
  assert (includes BODY_TYPES (typeof (_body (this s))) = false) as K.
  { destruct P as [P|P].
    - by destruct (_body (this s)).
    - apply isReader_true_inv in P as (props & name & -> & _). reflexivity. }
  pose proof (getBody_passthrough s K P) as G.
  do 3 eexists. split; [exact (toServerResponse_first s _ _ E G)|].
  cbn. by rewrite lookup_insert_eq.
Qed.

End Failures.

(** ** What conversion does to the headers *)

Section ConversionHeaders.

Context `{Platform}.

(** Content type synthesis either appends one Content-Type entry, which it
    does when the type is not empty, [contentType] resolves it to a string
    that is not empty, and there is no such entry yet, or does nothing. *)
Lemma setContentType_headers (s : State) :
  (∃ t c,
     _type (this s) = Some t ∧ t ≠ EmptyString ∧
     contentType t = Some c ∧ c ≠ EmptyString ∧
     Headers.has (current_headers s) "Content-Type" = false ∧
     current_headers (setContentType s).2 =
     (current_headers s ++ [("content-type", c)])%list)
  ∨ ((_type (this s) = None ∨ _type (this s) = Some EmptyString
      ∨ (∃ t, _type (this s) = Some t ∧
              (contentType t = None ∨ contentType t = Some EmptyString))
      ∨ Headers.has (current_headers s) "Content-Type" = true)
     ∧ (setContentType s).2 = s).
Proof.
  assert ((setContentType s).2 =
          match _type (this s) with
          | Some t =>
              if str_truthy t then
                match contentType t with
                | Some c =>
                    if str_truthy c
                       && negb (Headers.has (current_headers s) "Content-Type")
                    then mkState (this s)
                           (update_headers (_headers (this s))
                              (fun h => Headers.append h "Content-Type" c)
                              (store s))
                    else s
                | None => s
                end
              else s
          | None => s
          end) as ->.
  { unfold setContentType, type, headers, bind, read, headers_has,
      headers_append, ret, current_headers.
    destruct (_type (this s)) as [t|]; [|done]. cbn [default from_option id].
    destruct (str_truthy t); [|done].
    destruct (contentType t) as [c|]; [|done].
    destruct (str_truthy c); [|done]. cbn [andb].
    by destruct (negb _). }
  destruct (_type (this s)) as [t|] eqn:Ty; [|right; split; [by left|done]].
  destruct t as [|a t]; cbn [str_truthy];
    [right; split; [by right; left|done]|].
  destruct (contentType (String a t)) as [c|] eqn:Ct;
    [|right; split; [right; right; left; eauto|done]].
  destruct c as [|a' c]; cbn [str_truthy andb];
    [right; split; [right; right; left; eauto|done]|].
  destruct (Headers.has (current_headers s) "Content-Type") eqn:Hs;
    cbn [negb]; [right; split; [by repeat right|done]|].
  left. exists (String a t), (String a' c). repeat split; try done.
  unfold current_headers. cbn [this store].
  by rewrite headers_at_update.
Qed.

Lemma has_snoc (h : Headers.t) (entry : string * string) (name : string) :
  Headers.has (h ++ [entry])%list name =
  Headers.has h name || Headers.same_name name entry.
Proof.
  unfold Headers.has. by rewrite existsb_app; simpl; rewrite orb_false_r.
Qed.

(** The headers after a first conversion, from those after content type
    synthesis. *)
Lemma conversion_headers (s s1 : State) (result : JsValue) :
  _serverResponse (this s) = None ->
  getBody s = (Normal result, s1) ->
  let h := current_headers (setContentType s1).2 in
  ∃ p s' payload,
    toServerResponse s = (Normal p, s') ∧
    payload_objects (store s') !! p = Some payload ∧
    sr_body payload = result ∧
    current_headers s' =
    (if needs_length result h then h ++ [("content-length", "0")] else h)%list
    ∧ current_headers s1 = current_headers s.
Proof.
  intros E G h.
  destruct (getBody_effect s) as (c & s1' & G' & Hst & _ & Hth & _).
  rewrite G in G'. injection G' as <- <-.
  assert (_headers (this s1) = _headers (this s)) as Hh1
    by (destruct Hth as [-> | (t & _ & ->)]; reflexivity).
  destruct (setContentType_effect s1) as (s2 & C & Hth2 & _ & _).
  assert (h = headers_at (store s2) (_headers (this s1))) as Hh
    by (unfold h, current_headers; rewrite C; cbn [snd]; by rewrite Hth2).
  pose proof (toServerResponse_first s s1 result E G) as T.
  cbn zeta in T. rewrite C in T. cbn [snd] in T. rewrite <- Hh in T.
  do 3 eexists. split; [exact T|].
  cbn [store this payload_objects]. rewrite lookup_insert_eq.
  split; [reflexivity|]. split; [reflexivity|]. split.
  - unfold current_headers. cbn [this store _headers with_serverResponse
                                  with_writable].
    destruct (needs_length result h).
    + unfold headers_at at 1. cbn [headers_objects update_headers].
      rewrite lookup_insert_eq. cbn [default]. by rewrite <- Hh.
    + by rewrite Hh.
  - unfold current_headers. by rewrite Hst, Hh1.
Qed.

(** X6.  Conversion never removes or rewrites a header: the headers afterwards
    are those before, followed by at most one entry, which is a
    Content-Type entry or Content-Length: 0. *)
Theorem conversion_extends_headers (s s' : State) (p : loc) :
  _serverResponse (this s) = None ->
  toServerResponse s = (Normal p, s') ->
  current_headers s' = current_headers s
  ∨ (∃ c, current_headers s' =
          (current_headers s ++ [("content-type", c)])%list)
  ∨ current_headers s' =
    (current_headers s ++ [("content-length", "0")])%list.
Proof.
  intros E T.
  destruct (getBody_effect s) as (c & s1 & G & _ & _ & _ & _).
  destruct c as [result|e];
    [|by rewrite (toServerResponse_throws s s1 e E G) in T].
  destruct (conversion_headers s s1 result E G)
    as (p' & s'' & payload & T' & _ & _ & Hh & H1).
  rewrite T in T'. injection T' as <- <-. rewrite Hh, <- H1.
  destruct (setContentType_headers s1)
    as [(t & c & _ & _ & _ & _ & _ & ->) | [_ ->]].
  - right; left. exists c. unfold needs_length.
    rewrite !has_snoc.
    replace (Headers.same_name "Content-Type" ("content-type", c)) with true
      by reflexivity.
    by rewrite !orb_true_r.
  - destruct (needs_length result (current_headers s1)); eauto.
Qed.

(** X7.  A payload never leaves the transport guessing: it has a body, or its
    headers have a Content-Type or a Content-Length entry. *)
Theorem conversion_marks_empty_body (s s' : State) (p : loc) :
  _serverResponse (this s) = None ->
  toServerResponse s = (Normal p, s') ->
  ∃ payload,
    payload_objects (store s') !! p = Some payload ∧
    (truthy (sr_body payload) = true
     ∨ Headers.has (headers_at (store s') (sr_headers payload)) "Content-Type"
       = true
     ∨ Headers.has (headers_at (store s') (sr_headers payload))
         "Content-Length" = true).
Proof.
  intros E T.
  destruct (getBody_effect s) as (c & s1 & G & _ & _ & _ & _).
  destruct c as [result|e];
    [|by rewrite (toServerResponse_throws s s1 e E G) in T].
  pose proof (toServerResponse_first s s1 result E G) as T1.
  destruct (conversion_headers s s1 result E G)
    as (p' & s'' & payload & T' & L & B & Hh & _).
  rewrite T in T', T1. injection T' as <- <-.
  exists payload. split; [exact L|].
  assert (sr_headers payload = _headers (this s')) as ->.
  { injection T1 as -> ->. cbn in L. rewrite lookup_insert_eq in L.
    by injection L as <-. }
  fold (current_headers s'). rewrite Hh, B.
  set (h := current_headers (setContentType s1).2).
  unfold needs_length.
  destruct (truthy result); [by left|].
  destruct (Headers.has h "Content-Type") eqn:Ct; [by right; left|].
  destruct (Headers.has h "Content-Length") eqn:Cl; cbn [orb negb].
  - right; right. exact Cl.
  - right; right. rewrite has_snoc. apply orb_true_r.
Qed.

End ConversionHeaders.

(** ** What conversion keeps *)

Section ConversionFrame.

Context `{Platform}.

(** Body resolution changes the type only where it is unset or empty. *)
Lemma getBody_type (s s1 : State) (c : Completion JsValue) (t : string) :
  getBody s = (c, s1) ->
  _type (this s) = Some t -> t ≠ EmptyString ->
  _type (this s1) = Some t.
Proof.
  intros G Ty Ne.
  assert (∀ fallback, type_or (_type (this s)) fallback = t) as Hor
    by (intros f; rewrite Ty; by destruct t).
  revert G. unfold getBody, body, type, bind at 1, read at 1. cbn beta iota.
  destruct (includes BODY_TYPES _).
  - unfold bind, read. cbn beta iota. rewrite Hor.
    unfold set_type, bind, read, throw, write, ret.
    destruct (_writable (this s)); cbn; by intros [= <- <-].
  - unfold bind at 1.
    assert (∃ r, (if instanceof_Uint8Array (_body (this s)) then ret true
                  else lift (isReader (_body (this s)))) s = (r, s)) as [r ->]
      by (destruct (instanceof_Uint8Array _); unfold ret, lift; eauto).
    destruct r as [[]|e]; [by intros [= <- <-]| |by intros [= <- <-]].
    destruct (truthy _ && _).
    + unfold bind at 1, lift.
      destruct (JSON_stringify _) as [text|]; [|by intros [= <- <-]].
      unfold bind, read. cbn beta iota. rewrite Hor.
      unfold set_type, bind, read, throw, write, ret.
      destruct (_writable (this s)); cbn; by intros [= <- <-].
    + destruct (truthy _); unfold throw, ret; by intros [= <- <-].
Qed.

(** A body that is set and that was resolved is a primitive or an object,
    and what it was resolved to is present. *)
Lemma getBody_of_truthy (s s1 : State) (result : JsValue) :
  getBody s = (Normal result, s1) ->
  truthy (_body (this s)) = true ->
  (includes BODY_TYPES (typeof (_body (this s))) = true
   ∨ typeof (_body (this s)) = "object")
  ∧ truthy result = true.
Proof.
  intros G T.
  destruct (getBody_result s s1 result G) as [-> | R].
  - exfalso. revert G.
    unfold getBody, body, type, bind at 1, read at 1. cbn beta iota.
    destruct (includes BODY_TYPES _).
    + unfold bind, read. cbn beta iota.
      destruct (set_type _ _) as [[[]|] ?]; [|done]. by unfold ret.
    + unfold bind at 1.
      destruct (instanceof_Uint8Array (_body (this s))) eqn:I.
      * unfold ret. intros [= B _]. by rewrite B in T.
      * unfold lift. destruct (isReader _) as [[]|]; [| |done].
        -- unfold ret. intros [= B _]. by rewrite B in T.
        -- rewrite T. cbn [andb].
           destruct (String.eqb _ _); [|done].
           unfold bind at 1, lift.
           destruct (JSON_stringify _) as [text|]; [|done].
           unfold bind, read. cbn beta iota.
           destruct (set_type _ _) as [[[]|] ?]; [|done]. by unfold ret.
  - split; [|exact R].
    destruct (includes BODY_TYPES (typeof (_body (this s)))) eqn:K;
      [by left|right].
    destruct (String.eqb (typeof (_body (this s))) "object") eqn:O;
      [by apply String.eqb_eq|].
    exfalso.
    destruct (instanceof_Uint8Array (_body (this s))) eqn:I;
      [by destruct (_body (this s))|].
    destruct (isReader (_body (this s))) as [[]|e] eqn:Rd.
    + apply isReader_true_inv in Rd as (props & name & B & _).
      by rewrite B in O.
    + assert (unconvertible (_body (this s)) = true) as U
        by (unfold unconvertible; by rewrite T, K, I, Rd, O).
      by rewrite (getBody_unconvertible_body s U) in G.
    + unfold isReader in Rd. by rewrite O in Rd.
Qed.

(** X8.  An explicit status is the status of the payload, whatever the body;
    without one the payload has 200 with a body and 404 without. *)
Theorem payload_status (s s' : State) (p : loc) :
  _serverResponse (this s) = None ->
  toServerResponse s = (Normal p, s') ->
  ∃ payload,
    payload_objects (store s') !! p = Some payload ∧
    (∀ n, _status (this s) = Some n -> sr_status payload = n) ∧
    (_status (this s) = None ->
     sr_status payload =
     if truthy (sr_body payload) then Status.OK else Status.NotFound).
Proof.
  intros E T.
  destruct (getBody_effect s) as (c & s1 & G & _ & _ & _ & _).
  destruct c as [result|e];
    [|by rewrite (toServerResponse_throws s s1 e E G) in T].
  rewrite (toServerResponse_first s s1 result E G) in T.
  injection T as <- <-. eexists. cbn [store payload_objects].
  rewrite lookup_insert_eq. split; [reflexivity|]. cbn [sr_status sr_body].
  split; [by intros n ->|by intros ->].
Qed.

(** X9.  The [status] getter, read before conversion, is the status of the
    payload, for every body that is truthy or [undefined] (and a status that
    is not zero). *)
Theorem status_getter_predicts_payload (s s' : State) (p : loc) :
  _serverResponse (this s) = None ->
  toServerResponse s = (Normal p, s') ->
  _status (this s) ≠ Some 0 ->
  truthy (_body (this s)) = true ∨ _body (this s) = JUndefined ->
  ∃ payload,
    payload_objects (store s') !! p = Some payload ∧
    sr_status payload = status_value (this s).
Proof.
  intros E T Z B.
  destruct (getBody_effect s) as (c & s1 & G & _ & _ & _ & _).
  destruct c as [result|e];
    [|by rewrite (toServerResponse_throws s s1 e E G) in T].
  rewrite (toServerResponse_first s s1 result E G) in T.
  injection T as <- <-. eexists. cbn [store payload_objects].
  rewrite lookup_insert_eq. split; [reflexivity|]. cbn [sr_status].
  unfold status_value.
  destruct (_status (this s)) as [n|];
    cbn [status_truthy default from_option id].
  - destruct (n =? 0) eqn:N; [|done]. apply Z.eqb_eq in N. by subst.
  - destruct B as [B|B].
    + destruct (getBody_of_truthy s s1 result G B) as [K ->].
      rewrite B. cbn [andb].
      destruct K as [-> | ->]; [done|].
      by rewrite String.eqb_refl, orb_true_r.
    + rewrite (getBody_absent s B) in G. injection G as <- <-.
      by rewrite B.
Qed.

(** X10.  Conversion leaves body, status, request and headers reference of the
    instance as they are, and a type that is not empty as well. *)
Theorem conversion_keeps_fields (s s' : State) (p : loc) :
  toServerResponse s = (Normal p, s') ->
  _body (this s') = _body (this s) ∧
  _status (this s') = _status (this s) ∧
  _request (this s') = _request (this s) ∧
  _headers (this s') = _headers (this s) ∧
  (∀ t, _type (this s) = Some t -> t ≠ EmptyString ->
        _type (this s') = Some t).
Proof.
  intros T. destruct (_serverResponse (this s)) as [q|] eqn:E.
  - rewrite (toServerResponse_memo s q E) in T. by injection T as <- <-.
  - destruct (getBody_effect s) as (c & s1 & G & _ & _ & Hth & _).
    destruct c as [result|e];
      [|by rewrite (toServerResponse_throws s s1 e E G) in T].
    rewrite (toServerResponse_first s s1 result E G) in T.
    injection T as <- <-. cbn [this].
    repeat split;
      try (destruct Hth as [-> | (t & _ & ->)]; reflexivity).
    intros t Ty Ne. exact (getBody_type s s1 _ t G Ty Ne).
Qed.

(** A first conversion touches no [Headers] object but the one of the
    instance. *)
Lemma conversion_other_headers (s s' : State) (p : loc) :
  _serverResponse (this s) = None ->
  toServerResponse s = (Normal p, s') ->
  ∀ l, l ≠ _headers (this s) ->
       headers_at (store s') l = headers_at (store s) l.
Proof.
  intros E T.
  destruct (getBody_effect s) as (c & s1 & G & Hst & _ & Hth & _).
  destruct c as [result|e];
    [|by rewrite (toServerResponse_throws s s1 e E G) in T].
  assert (_headers (this s1) = _headers (this s)) as Hh
    by (destruct Hth as [-> | (t & _ & ->)]; reflexivity).
  destruct (setContentType_effect s1) as (s2 & C & _ & _ & Hs2).
  rewrite (toServerResponse_first s s1 result E G) in T.
  rewrite C in T. cbn [snd] in T.
  injection T as <- <-. cbn [store payload_objects].
  intros l Hl. rewrite <- Hh in Hl. rewrite <- Hst, <- (Hs2 l Hl).
  destruct (needs_length _ _); [|done].
  unfold headers_at. cbn [headers_objects update_headers].
  by rewrite lookup_insert_ne.
Qed.

(** X11.  A first conversion makes its payload at a location that had none,
    leaves every other payload object alone, and touches no [Headers]
    object but the one of the instance. *)
Theorem conversion_frame (s s' : State) (p : loc) :
  _serverResponse (this s) = None ->
  toServerResponse s = (Normal p, s') ->
  payload_objects (store s) !! p = None ∧
  (∀ q, q ≠ p ->
        payload_objects (store s') !! q = payload_objects (store s) !! q) ∧
  (∀ l, l ≠ _headers (this s) ->
        headers_at (store s') l = headers_at (store s) l).
Proof.
  intros E T.
  split; [|split; [|exact (conversion_other_headers s s' p E T)]].
  - destruct (getBody_effect s) as (c & s1 & G & _ & _ & _ & _).
    destruct c as [result|e];
      [|by rewrite (toServerResponse_throws s s1 e E G) in T].
    rewrite (toServerResponse_first s s1 result E G) in T.
    injection T as <- _. apply not_elem_of_dom, is_fresh.
  - destruct (getBody_effect s) as (c & s1 & G & _ & _ & _ & _).
    destruct c as [result|e];
      [|by rewrite (toServerResponse_throws s s1 e E G) in T].
    rewrite (toServerResponse_first s s1 result E G) in T.
    injection T as <- <-. cbn [store payload_objects].
    intros q Hq. by rewrite lookup_insert_ne.
Qed.

End ConversionFrame.

(** ** Content type, redirects and the shared headers *)

Lemma get_snoc_ne (h : Headers.t) (entry : string * string) (name : string) :
  Headers.same_name name entry = false ->
  Headers.get (h ++ [entry])%list name = Headers.get h name.
Proof.
  intros Ne. unfold Headers.get. rewrite List.filter_app. cbn [List.filter].
  by rewrite Ne, app_nil_r.
Qed.

Section Composition.

Context `{Platform}.

(** X12.  Conversion does not overwrite a Content-Type header: with such an
    entry in place, the headers after conversion are those before. *)
Theorem content_type_is_not_overwritten (s s' : State) (p : loc) :
  _serverResponse (this s) = None ->
  toServerResponse s = (Normal p, s') ->
  Headers.has (current_headers s) "Content-Type" = true ->
  current_headers s' = current_headers s.
Proof.
  intros E T Ct.
  destruct (getBody_effect s) as (c & s1 & G & _ & _ & _ & _).
  destruct c as [result|e];
    [|by rewrite (toServerResponse_throws s s1 e E G) in T].
  destruct (conversion_headers s s1 result E G)
    as (p' & s'' & payload & T' & _ & _ & Hh & H1).
  rewrite T in T'. injection T' as <- <-. rewrite Hh. rewrite <- H1 in *.
  destruct (setContentType_headers s1)
    as [(t & c & _ & _ & _ & _ & Hn & _) | [_ ->]]; [congruence|].
  unfold needs_length. rewrite Ct. by rewrite orb_true_r.
Qed.

(** X13.  Without a Content-Type header, a type that [contentType] resolves puts
    one there: the type that was set, or the one body resolution inferred. *)
Theorem content_type_from_type (s s1 : State) (result : JsValue)
    (t c : string) :
  _serverResponse (this s) = None ->
  getBody s = (Normal result, s1) ->
  _type (this s1) = Some t -> t ≠ EmptyString ->
  contentType t = Some c -> c ≠ EmptyString ->
  Headers.has (current_headers s) "Content-Type" = false ->
  ∃ p s',
    toServerResponse s = (Normal p, s') ∧
    current_headers s' = (current_headers s ++ [("content-type", c)])%list.
Proof.
  intros E G Ty Nt Ct Nc Hn.
  destruct (conversion_headers s s1 result E G)
    as (p & s' & payload & T & _ & _ & Hh & H1).
  exists p, s'. split; [exact T|]. rewrite Hh. rewrite <- H1 in *.
  destruct (setContentType_headers s1)
    as [(t' & c' & Ty' & _ & Ct' & _ & _ & ->) | [Hc _]].
  - rewrite Ty in Ty'. injection Ty' as <-.
    rewrite Ct in Ct'. injection Ct' as <-.
    unfold needs_length. rewrite !has_snoc.
    replace (Headers.same_name "Content-Type" ("content-type", c)) with true
      by reflexivity.
    by rewrite !orb_true_r.
  - exfalso. destruct Hc as [Hc | [Hc | [(t' & Ty' & Hc) | Hc]]];
      try congruence.
    rewrite Ty in Ty'. injection Ty' as <-. destruct Hc; congruence.
Qed.

(** X14.  Whether it returns or throws, [redirect] leaves the Location header
    with one value, the escaped target: the referrer, else the alternative,
    else "/", for [REDIRECT_BACK]; the text of the URL otherwise. *)
Theorem redirect_location (s : State) (alt : option StringOrURL) :
  let location url :=
    Headers.get (current_headers (redirect url alt s).2) "Location" in
  location REDIRECT_BACK =
  Some (encodeUrl
          (default (String_alt (default (AltString "/") alt))
             (Headers.get (req_headers (_request (this s))) "Referrer"))) ∧
  (∀ u, location (ToString_ u) = Some (encodeUrl u)) ∧
  (∀ u, location (ToURL u) = Some (encodeUrl (href u))).
Proof.
  assert (∀ url,
            Headers.get (current_headers (redirect url alt s).2) "Location" =
            Some (encodeUrl (redirect_target (_request (this s)) url alt)))
    as Hloc.
  { intros url. destruct (_writable (this s)) eqn:W.
    - rewrite redirect_writable by exact W.
      unfold current_headers. cbn [snd this store].
      destruct (negb (isRedirectStatus (status_value (this s))));
        cbn [_headers with_body with_type with_status];
        rewrite headers_at_update; apply get_set.
    - rewrite redirect_frozen by exact W.
      unfold current_headers. cbn [snd this store].
      rewrite headers_at_update. apply get_set. }
  cbn zeta. repeat split; try (intros u); rewrite Hloc; try reflexivity.
Qed.

(** X15.  [redirect] keeps a status that was set and is a redirect status: it
    is still the status afterwards, and the one the getter shows. *)
Theorem redirect_keeps_redirect_status (s : State) (url : RedirectTarget)
    (alt : option StringOrURL) (n : Z) :
  _writable (this s) = true ->
  _status (this s) = Some n -> n ≠ 0 ->
  isRedirectStatus n = true ->
  _status (this (redirect url alt s).2) = Some n ∧
  status_value (this (redirect url alt s).2) = n.
Proof.
  intros W St Nz R.
  assert (status_value (this s) = n) as Sv.
  { unfold status_value. rewrite St. cbn [status_truthy default from_option id].
    by rewrite (proj2 (Z.eqb_neq n 0) Nz). }
  rewrite redirect_writable by exact W.
  rewrite Sv, R. cbn [negb snd this]. split; [exact St|].
  unfold status_value. cbn [_status with_body with_type]. rewrite St.
  cbn [status_truthy default from_option id].
  by rewrite (proj2 (Z.eqb_neq n 0) Nz).
Qed.

(** X16.  A redirect followed by conversion: the payload carries the encoded
    message, the type is the one [redirect] chose (no inference from the
    text of the message), the status is 302 where [redirect] forced it, and
    the Location header is in the headers of the payload. *)
Theorem redirect_then_conversion (s : State) (url : RedirectTarget)
    (alt : option StringOrURL) :
  consistent s = true ->
  _serverResponse (this s) = None ->
  let target := redirect_target (_request (this s)) url alt in
  let html := req_accepts (_request (this s)) "html" in
  let message :=
    if html
    then "Redirecting to <a href=" ++ dquote ++ encodeURI target ++ dquote
         ++ ">" ++ encodeURI target ++ "</a>."
    else "Redirecting to " ++ target ++ "." in
  ∃ p s' payload,
    toServerResponse (after (Redirect url alt) s) = (Normal p, s') ∧
    payload_objects (store s') !! p = Some payload ∧
    sr_body payload = JUint8Array (TextEncoder_encode message) ∧
    _type (this s') =
    Some (if html then "text/html; charset=utf-8"
          else "text/plain; charset=utf-8") ∧
    (isRedirectStatus (status_value (this s)) = false ->
     sr_status payload = Status.Found) ∧
    Headers.get (headers_at (store s') (sr_headers payload)) "Location" =
    Some (encodeUrl target).
Proof.
  intros C E target html message.
  pose proof (consistent_writable s C E) as W.
  set (s1 := after (Redirect url alt) s).
  assert (s1 = (redirect url alt s).2) as Hs1 by reflexivity.
  rewrite redirect_writable in Hs1 by exact W. cbn [snd] in Hs1.
  fold target html in Hs1.
  assert (_body (this s1) = JString message) as Hb
    by (rewrite Hs1; unfold message; by destruct html).
  assert (_writable (this s1) = true) as W1
    by (rewrite Hs1; cbn; by destruct (negb _)).
  assert (_serverResponse (this s1) = None) as E1
    by (rewrite Hs1; cbn; by destruct (negb _)).
  assert (_type (this s1) =
          Some (if html then "text/html; charset=utf-8"
                else "text/plain; charset=utf-8")) as Ty1
    by (by rewrite Hs1).
  assert (Headers.get (current_headers s1) "Location" =
          Some (encodeUrl target)) as Hl.
  { rewrite Hs1. unfold current_headers. cbn [this store].
    destruct (negb (isRedirectStatus (status_value (this s))));
      cbn [_headers with_body with_type with_status];
      rewrite headers_at_update; apply get_set. }
  assert (isRedirectStatus (status_value (this s)) = false ->
          _status (this s1) = Some Status.Found) as Hst
    by (intros R; rewrite Hs1, R; reflexivity).
  assert (includes BODY_TYPES (typeof (_body (this s1))) = true) as K
    by (by rewrite Hb).
  pose proof (getBody_primitive s1 W1 K) as G.
  rewrite Hb in G. cbn [String_] in G.
  destruct (conversion_headers s1 _ _ E1 G)
    as (p & s' & payload & T & L & B & Hh & H1).
  pose proof (toServerResponse_first s1 _ _ E1 G) as T1.
  rewrite T in T1. injection T1 as Hp Hs'.
  exists p, s', payload. split; [exact T|]. split; [exact L|].
  split; [exact B|].
  assert (payload =
          mkServerResponse
            (default Status.OK (_status (this s1))) (_headers (this s1))
            (JUint8Array (TextEncoder_encode message))) as Hpl.
  { rewrite Hs' in L. cbn [store payload_objects] in L.
    rewrite <- Hp, lookup_insert_eq in L. by injection L as <-. }
  split; [|split].
  - rewrite Hs'. cbn [this _type with_serverResponse with_writable with_type].
    rewrite Ty1. by destruct html.
  - intros R. rewrite Hpl. cbn [sr_status]. by rewrite (Hst R).
  - assert (sr_headers payload = _headers (this s')) as ->
      by (rewrite Hpl, Hs'; reflexivity).
    fold (current_headers s'). rewrite Hh.
    unfold needs_length. cbn [truthy orb negb].
    cbn [this store current_headers] in H1.
    destruct (setContentType_headers
                (mkState
                   (with_type
                      (Some (type_or (_type (this s1))
                               (if isHtml message then "html"
                                else "text/plain")))
                      (this s1))
                   (store s1)))
      as [(t & c & _ & _ & _ & _ & _ & ->) | [_ ->]].
    + rewrite get_snoc_ne by reflexivity. by rewrite H1.
    + by rewrite H1.
Qed.

(** X17.  A new instance, converted as it is, in any store: the payload has
    status 404, no body, and headers that are Content-Length: 0 alone; the
    [Headers] objects that were in the store are as before. *)
Theorem new_instance_conversion (request : Request) (st : Store) :
  ∃ p s' payload,
    toServerResponse (constructor request st) = (Normal p, s') ∧
    payload_objects (store s') !! p = Some payload ∧
    sr_status payload = Status.NotFound ∧
    sr_body payload = JUndefined ∧
    headers_at (store s') (sr_headers payload) = [("content-length", "0")] ∧
    ∀ l, is_Some (headers_objects st !! l) ->
         headers_at (store s') l = headers_at st l.
Proof.
  set (s := constructor request st).
  pose proof (toServerResponse_first s s JUndefined eq_refl
                (getBody_absent s eq_refl)) as T.
  cbn zeta in T. rewrite (setContentType_no_type s eq_refl) in T.
  cbn [snd] in T.
  assert (headers_at (store s) (_headers (this s)) = []) as H0
    by (unfold headers_at; cbn; by rewrite lookup_insert_eq).
  rewrite H0 in T. cbn [needs_length truthy Headers.has existsb orb negb] in T.
  do 3 eexists. split; [exact T|].
  cbn [store payload_objects]. rewrite lookup_insert_eq.
  split; [reflexivity|]. split; [reflexivity|]. split; [reflexivity|].
  cbn [sr_headers]. split.
  - unfold headers_at at 1. cbn [headers_objects update_headers].
    rewrite lookup_insert_eq. cbn [default from_option id]. by rewrite H0.
  - intros l Hl.
    assert (l ≠ fresh (dom (headers_objects st))) as Ne.
    { intros ->. apply elem_of_dom in Hl. by apply is_fresh in Hl. }
    unfold headers_at. cbn. by rewrite !lookup_insert_ne.
Qed.

(** X18.  The freeze does not reach the headers: after conversion, an entry
    appended through the [headers] getter, with a name and a value that
    the platform accepts and stores as they are, lands in the headers of
    the payload, while the instance itself stays as it is. *)
Theorem headers_stay_mutable (s : State) (p : loc) (name value : string) :
  consistent s = true ->
  _serverResponse (this s) = Some p ->
  Headers.legal_name name = true ->
  Headers.plain_value value = true ->
  let s' := after (HeadersAppend name value) s in
  ∃ payload,
    payload_objects (store s') !! p = Some payload ∧
    this s' = this s ∧
    headers_at (store s') (sr_headers payload) =
    (headers_at (store s) (sr_headers payload)
     ++ [(Headers.lower name, value)])%list.
Proof.
  intros C E _ _. unfold consistent in C. rewrite E in C.
  apply andb_true_iff in C as [_ C].
  destruct (payload_objects (store s) !! p) as [payload|] eqn:L; [|done].
  apply Nat.eqb_eq in C.
  exists payload. unfold after. cbn [call].
  unfold bind, headers, read, headers_append. cbn [snd this store].
  split; [exact L|]. split; [reflexivity|].
  by rewrite C, headers_at_update.
Qed.

(** X19.  Headers that were replaced before conversion: the payload refers to
    the new object, and the object the instance had before is not touched
    by the conversion. *)
Theorem replaced_headers_conversion (s s' : State) (l p : loc) :
  _writable (this s) = true ->
  _serverResponse (this s) = None ->
  l ≠ _headers (this s) ->
  toServerResponse (after (SetHeaders l) s) = (Normal p, s') ->
  ∃ payload,
    payload_objects (store s') !! p = Some payload ∧
    sr_headers payload = l ∧
    headers_at (store s') (_headers (this s)) =
    headers_at (store s) (_headers (this s)).
Proof.
  intros W E Ne T.
  set (s0 := after (SetHeaders l) s) in *.
  assert (s0 = mkState (with_headers l (this s)) (store s)) as Hs0
    by (unfold s0, after; cbn [call]; by rewrite set_headers_writable).
  assert (_serverResponse (this s0) = None) as E0 by (by rewrite Hs0).
  pose proof (conversion_other_headers s0 s' p E0 T) as Hf.
  destruct (getBody_effect s0) as (c & s1 & G & _ & _ & Hth & _).
  destruct c as [result|e];
    [|by rewrite (toServerResponse_throws s0 s1 e E0 G) in T].
  assert (_headers (this s1) = l) as Hh
    by (destruct Hth as [-> | (t & _ & ->)]; by rewrite Hs0).
  rewrite (toServerResponse_first s0 s1 result E0 G) in T.
  injection T as Hp Hs'. eexists. split; [|split].
  - rewrite <- Hs'. cbn [store payload_objects]. rewrite Hp.
    apply lookup_insert_eq.
  - exact Hh.
  - rewrite (Hf (_headers (this s))); [by rewrite Hs0|].
    rewrite Hs0. cbn. congruence.
Qed.

End Composition.

(** * Runs on the sample platform *)

Module Runs.

Import Sample.

#[local] Existing Instance platform.

(** A new instance reads as 404; with a body it reads as 200. *)
Example status_of_new_instance :
  status_value (this (fresh_response plain_request)) = Status.NotFound.
Proof. reflexivity. Qed.

Example status_with_text_body :
  status_value (this (response_with_body plain_request (JString "hi")))
  = Status.OK.
Proof. reflexivity. Qed.

(** The number zero and [false] as body read as 404 as well. *)
Example status_with_zero_body :
  status_value
    (this (response_with_body plain_request (JNumber (S754_zero false))))
  = Status.NotFound ∧
  status_value (this (response_with_body plain_request (JBoolean false)))
  = Status.NotFound.
Proof. split; reflexivity. Qed.

(** [null] as body: the reader guard throws on conversion. *)
Example null_body_conversion :
  ∃ message,
    toServerResponse (response_with_body plain_request JNull) =
    (Throw (mkError TypeError_ message),
     response_with_body plain_request JNull).
Proof. eexists. reflexivity. Qed.

(** A text response, converted, then a late status and a late redirect. *)
Lemma frozen_after_conversion_witness :
  let s := response_with_body plain_request (JString "hi") in
  let s1 := (toServerResponse s).2 in
  let s2 := after_all [SetStatus 500; Redirect REDIRECT_BACK None] s1 in
  consistent s = true ∧
  toServerResponse s = (Normal 0%nat, s1) ∧
  writable s2 = (Normal false, s2) ∧
  (∀ value, set_body value s2 = (Throw notWritable, s2)) ∧
  (∀ value, set_headers value s2 = (Throw notWritable, s2)) ∧
  (∀ value, set_status value s2 = (Throw notWritable, s2)) ∧
  (∀ value, set_type value s2 = (Throw notWritable, s2)).
Proof.
  cbn zeta. split; [reflexivity|]. split; [reflexivity|].
  apply (frozen_after_conversion
           (response_with_body plain_request (JString "hi")) _ 0%nat);
    reflexivity.
Defined.

(** A text response, converted, then a late body and a late header. *)
Lemma conversion_memoised_witness :
  let s := response_with_body plain_request (JString "hi") in
  let s1 := (toServerResponse s).2 in
  let s2 := after_all [SetBody JNull; HeadersSet "X-Late" "1"] s1 in
  consistent s = true ∧
  toServerResponse s = (Normal 0%nat, s1) ∧
  toServerResponse s2 = (Normal 0%nat, s2) ∧
  _serverResponse (this s2) = Some 0%nat ∧
  is_Some (payload_objects (store s1) !! 0%nat) ∧
  payload_objects (store s2) !! 0%nat = payload_objects (store s1) !! 0%nat.
Proof.
  cbn zeta. split; [reflexivity|]. split; [reflexivity|].
  apply (conversion_memoised
           (response_with_body plain_request (JString "hi")) _ 0%nat);
    reflexivity.
Defined.

(** A function as body. *)
Lemma unconvertible_body_throws_witness :
  let s := response_with_body plain_request (JFunction "handler") in
  consistent s = true ∧
  unconvertible (_body (this s)) = true ∧
  toServerResponse s = (Throw couldNotConvert, s) ∧
  _serverResponse (this s) = None ∧
  _writable (this s) = true ∧
  ∀ value, ∃ s', set_body value s = (Normal tt, s') ∧
                 _body (this s') = value ∧ consistent s' = true.
Proof.
  cbn zeta. split; [reflexivity|]. split; [reflexivity|].
  apply (unconvertible_body_throws
           (response_with_body plain_request (JFunction "handler")));
    reflexivity.
Defined.

(** A string of markup as body, no type. *)
Lemma primitive_body_conversion_witness :
  let s := response_with_body plain_request (JString "<html>hi</html>") in
  consistent s = true ∧
  _serverResponse (this s) = None ∧
  includes BODY_TYPES (typeof (_body (this s))) = true ∧
  getBody s =
  (Normal (JUint8Array (TextEncoder_encode "<html>hi</html>")),
   mkState (with_type (Some "html") (this s)) (store s)) ∧
  ∃ p s' payload,
    toServerResponse s = (Normal p, s') ∧
    payload_objects (store s') !! p = Some payload ∧
    sr_body payload = JUint8Array (TextEncoder_encode "<html>hi</html>") ∧
    _type (this s') = Some "html" ∧
    (_type (this s) = None -> _type (this s') = Some "html").
Proof.
  cbn zeta. split; [reflexivity|]. split; [reflexivity|].
  split; [reflexivity|].
  exact (primitive_body_conversion
           (response_with_body plain_request (JString "<html>hi</html>"))
           eq_refl eq_refl eq_refl).
Defined.

(** C6, as stated, fails on this instance: its body is an empty object,
    its type was set to the empty string, and after conversion the type
    is "json", not the one that was set. *)
Lemma empty_type_is_replaced :
  let s := empty_type_response in
  let s' := (toServerResponse s).2 in
  _body (this s) = JObject [] ∧
  _type (this s) = Some EmptyString ∧
  (toServerResponse s).1 = Normal 0%nat ∧
  _type (this s') = Some "json" ∧
  _type (this s') ≠ _type (this s).
Proof. cbn zeta. repeat split. by intros [=]. Qed.

(** An empty array as body, with a type of its own. *)
Lemma structured_body_conversion_witness :
  let s := after (SetType (Some "application/json"))
                 (response_with_body plain_request (JArray [])) in
  consistent s = true ∧
  _serverResponse (this s) = None ∧
  truthy (_body (this s)) = true ∧
  typeof (_body (this s)) = "object" ∧
  instanceof_Uint8Array (_body (this s)) = false ∧
  isReader (_body (this s)) = Normal false ∧
  JSON_stringify (_body (this s)) = Normal (Some "[]") ∧
  ∃ p s' payload,
    toServerResponse s = (Normal p, s') ∧
    payload_objects (store s') !! p = Some payload ∧
    sr_body payload = JUint8Array (TextEncoder_encode "[]") ∧
    (_type (this s) = None ∨ _type (this s) = Some EmptyString ->
     _type (this s') = Some "json") ∧
    (∀ t, _type (this s) = Some t -> t ≠ EmptyString ->
          _type (this s') = Some t).
Proof.
  cbn zeta. do 7 (split; [reflexivity|]).
  exact (proj1
           (structured_body_conversion
              (after (SetType (Some "application/json"))
                     (response_with_body plain_request (JArray [])))
              eq_refl eq_refl eq_refl eq_refl eq_refl eq_refl)
           (Some "[]") eq_refl).
Defined.

(** An object with a big integer inside: [JSON.stringify] throws, so does
    conversion, and the instance is as before. *)
Example bigint_in_body_throws :
  let s := response_with_body plain_request (JObject [("a", JBigInt 1)]) in
  structured (_body (this s)) = true ∧
  (∃ e, JSON_stringify (_body (this s)) = Throw e ∧
        toServerResponse s = (Throw e, s)) ∧
  _writable (this s) = true ∧ _serverResponse (this s) = None.
Proof. cbn zeta. split; [reflexivity|]. split; [by eexists|done]. Qed.

(** A new instance, converted as it is. *)
Lemma empty_body_marker_witness :
  let s := fresh_response plain_request in
  _serverResponse (this s) = None ∧
  getBody s = (Normal JUndefined, s) ∧
  ∃ p s' payload,
    toServerResponse s = (Normal p, s') ∧
    payload_objects (store s') !! p = Some payload ∧
    sr_headers payload = _headers (this s') ∧
    (truthy JUndefined = false ->
     Headers.has [] "Content-Type" = false ->
     Headers.has [] "Content-Length" = false ->
     headers_at (store s') (sr_headers payload) =
     [("content-length", "0")]) ∧
    (truthy JUndefined = true ∨ Headers.has [] "Content-Type" = true
     ∨ Headers.has [] "Content-Length" = true ->
     headers_at (store s') (sr_headers payload) = []).
Proof.
  cbn zeta. do 2 (split; [reflexivity|]).
  exact (empty_body_marker (fresh_response plain_request) _ JUndefined
           eq_refl eq_refl).
Defined.

(** With a type and without a body: the Content-Type entry is
    synthesised, and no Content-Length is appended. *)
Example conversion_of_typed_empty_response :
  let s := after (SetType (Some "json")) (fresh_response plain_request) in
  current_headers s = [] ∧
  getBody s = (Normal JUndefined, s) ∧
  current_headers (after ToServerResponse s) =
  [("content-type", "application/json; charset=utf-8")].
Proof. cbn zeta. repeat split. Qed.

(** Redirect back on a new instance whose request has no headers. *)
Lemma redirect_back_without_referrer_witness :
  let s := fresh_response plain_request in
  _writable (this s) = true ∧
  Headers.get (req_headers (_request (this s))) "Referrer" = None ∧
  ∃ s',
    redirect REDIRECT_BACK None s = (Normal tt, s') ∧
    Headers.get (current_headers s') "Location" = Some "/" ∧
    (isRedirectStatus (status_value (this s)) = false ->
     _status (this s') = Some Status.Found) ∧
    (_status (this s) = None ->
     isRedirectStatus Status.OK = false ->
     isRedirectStatus Status.NotFound = false ->
     _status (this s') = Some Status.Found).
Proof.
  cbn zeta. do 2 (split; [reflexivity|]).
  exact (redirect_back_without_referrer (fresh_response plain_request)
           eq_refl eq_refl).
Defined.

(** Redirect to a path for a client that accepts html. *)
Lemma redirect_negotiates_body_witness :
  let s := fresh_response html_request in
  _writable (this s) = true ∧
  ∃ s',
    redirect (ToString_ "/login") None s = (Normal tt, s') ∧
    _type (this s') = Some "text/html; charset=utf-8" ∧
    _body (this s') =
    JString ("Redirecting to <a href=" ++ dquote ++ "/login" ++ dquote
             ++ ">/login</a>.").
Proof.
  cbn zeta. split; [reflexivity|].
  exact (redirect_negotiates_body (fresh_response html_request)
           (ToString_ "/login") None eq_refl).
Defined.

(** Redirect on an instance that was converted. *)
Lemma redirect_after_conversion_witness :
  let s := converted_response html_request in
  consistent s = true ∧
  _serverResponse (this s) = Some 0%nat ∧
  ∃ s' payload,
    redirect (ToString_ "/login") None s = (Throw notWritable, s') ∧
    this s' = this s ∧
    payload_objects (store s') = payload_objects (store s) ∧
    payload_objects (store s') !! 0%nat = Some payload ∧
    sr_headers payload = _headers (this s) ∧
    headers_at (store s') (sr_headers payload) =
    Headers.set (headers_at (store s) (sr_headers payload)) "Location"
                "/login" ∧
    Headers.get (headers_at (store s') (sr_headers payload)) "Location" =
    Some "/login".
Proof.
  cbn zeta. do 2 (split; [reflexivity|]).
  exact (redirect_after_conversion (converted_response html_request) 0%nat
           (ToString_ "/login") None eq_refl eq_refl).
Defined.

(** The payload that was handed out has other headers after the failed
    [redirect] than before. *)
Example redirect_changes_the_payload_headers :
  let s := converted_response html_request in
  let s' := after (Redirect (ToString_ "/login") None) s in
  payload_objects (store s) !! 0%nat
  = Some (mkServerResponse Status.NotFound 0%nat JUndefined) ∧
  payload_objects (store s') !! 0%nat = payload_objects (store s) !! 0%nat ∧
  headers_at (store s) 0%nat = [("content-length", "0")] ∧
  headers_at (store s') 0%nat
  = [("content-length", "0"); ("location", "/login")].
Proof. cbn zeta. repeat split. Qed.

End Runs.

(** * Runs for the further properties *)

Module FurtherRuns.

Import Sample.

#[local] Existing Instance platform.

(** [null] as body. *)
Lemma null_body_throws_witness :
  let s := response_with_body plain_request JNull in
  _serverResponse (this s) = None ∧ _body (this s) = JNull ∧
  (∃ message, toServerResponse s = (Throw (mkError TypeError_ message), s)) ∧
  (status_truthy (_status (this s)) = false ->
   status s = (Normal Status.NotFound, s)).
Proof.
  cbn zeta. do 2 (split; [reflexivity|]).
  exact (null_body_throws (response_with_body plain_request JNull)
           eq_refl eq_refl).
Defined.

(** A function as body: the conversion error, nothing changed. *)
Lemma conversion_failure_witness :
  let s := response_with_body plain_request (JFunction "handler") in
  consistent s = true ∧
  toServerResponse s = (Throw couldNotConvert, s) ∧
  s = s ∧
  (_body (this s) = JNull ∨
   (unconvertible (_body (this s)) = true ∧ couldNotConvert = couldNotConvert)
   ∨ (structured (_body (this s)) = true ∧
      JSON_stringify (_body (this s)) = Throw couldNotConvert)).
Proof.
  cbn zeta. do 2 (split; [reflexivity|]).
  exact (conversion_failure
           (response_with_body plain_request (JFunction "handler")) _ _
           eq_refl eq_refl).
Defined.

(** A reader as body. *)
Lemma passthrough_body_conversion_witness :
  let reader := JObject [("read", JFunction "read")] in
  let s := response_with_body plain_request reader in
  _serverResponse (this s) = None ∧
  isReader (_body (this s)) = Normal true ∧
  ∃ p s' payload,
    toServerResponse s = (Normal p, s') ∧
    payload_objects (store s') !! p = Some payload ∧
    sr_body payload = reader ∧
    _type (this s') = None.
Proof.
  cbn zeta. do 2 (split; [reflexivity|]).
  exact (passthrough_body_conversion
           (response_with_body plain_request
              (JObject [("read", JFunction "read")]))
           eq_refl (or_intror eq_refl)).
Defined.

(** A text body: one Content-Type entry is added. *)
Lemma conversion_extends_headers_witness :
  let s := response_with_body plain_request (JString "hi") in
  let s' := (toServerResponse s).2 in
  _serverResponse (this s) = None ∧
  toServerResponse s = (Normal 0%nat, s') ∧
  (current_headers s' = current_headers s
   ∨ (∃ c, current_headers s' =
           (current_headers s ++ [("content-type", c)])%list)
   ∨ current_headers s' =
     (current_headers s ++ [("content-length", "0")])%list).
Proof.
  cbn zeta. do 2 (split; [reflexivity|]).
  exact (conversion_extends_headers
           (response_with_body plain_request (JString "hi")) _ 0%nat
           eq_refl eq_refl).
Defined.

(** A new instance: no body, hence the Content-Length entry. *)
Lemma conversion_marks_empty_body_witness :
  let s := fresh_response plain_request in
  let s' := (toServerResponse s).2 in
  _serverResponse (this s) = None ∧
  toServerResponse s = (Normal 0%nat, s') ∧
  ∃ payload,
    payload_objects (store s') !! 0%nat = Some payload ∧
    (truthy (sr_body payload) = true
     ∨ Headers.has (headers_at (store s') (sr_headers payload)) "Content-Type"
       = true
     ∨ Headers.has (headers_at (store s') (sr_headers payload))
         "Content-Length" = true).
Proof.
  cbn zeta. do 2 (split; [reflexivity|]).
  exact (conversion_marks_empty_body (fresh_response plain_request) _ 0%nat
           eq_refl eq_refl).
Defined.

(** Status 201 set, no body. *)
Lemma payload_status_witness :
  let s := after (SetStatus 201) (fresh_response plain_request) in
  let s' := (toServerResponse s).2 in
  _serverResponse (this s) = None ∧
  toServerResponse s = (Normal 0%nat, s') ∧
  ∃ payload,
    payload_objects (store s') !! 0%nat = Some payload ∧
    (∀ n, _status (this s) = Some n -> sr_status payload = n) ∧
    (_status (this s) = None ->
     sr_status payload =
     if truthy (sr_body payload) then Status.OK else Status.NotFound).
Proof.
  cbn zeta. do 2 (split; [reflexivity|]).
  exact (payload_status (after (SetStatus 201) (fresh_response plain_request))
           _ 0%nat eq_refl eq_refl).
Defined.

(** A text body, no status. *)
Lemma status_getter_predicts_payload_witness :
  let s := response_with_body plain_request (JString "hi") in
  let s' := (toServerResponse s).2 in
  _serverResponse (this s) = None ∧
  toServerResponse s = (Normal 0%nat, s') ∧
  _status (this s) ≠ Some 0 ∧
  truthy (_body (this s)) = true ∧
  ∃ payload,
    payload_objects (store s') !! 0%nat = Some payload ∧
    sr_status payload = status_value (this s).
Proof.
  cbn zeta. do 2 (split; [reflexivity|]). split; [done|].
  split; [reflexivity|].
  exact (status_getter_predicts_payload
           (response_with_body plain_request (JString "hi")) _ 0%nat
           eq_refl eq_refl ltac:(done) (or_introl eq_refl)).
Defined.

(** A text body with a type of its own. *)
Lemma conversion_keeps_fields_witness :
  let s := after (SetType (Some "text/csv"))
                 (response_with_body plain_request (JString "a,b")) in
  let s' := (toServerResponse s).2 in
  toServerResponse s = (Normal 0%nat, s') ∧
  _body (this s') = _body (this s) ∧
  _status (this s') = _status (this s) ∧
  _request (this s') = _request (this s) ∧
  _headers (this s') = _headers (this s) ∧
  (∀ t, _type (this s) = Some t -> t ≠ EmptyString ->
        _type (this s') = Some t).
Proof.
  cbn zeta. split; [reflexivity|].
  exact (conversion_keeps_fields
           (after (SetType (Some "text/csv"))
                  (response_with_body plain_request (JString "a,b")))
           _ 0%nat eq_refl).
Defined.

(** The second of two instances, converted. *)
Lemma conversion_frame_witness :
  let s := second_response in
  let s' := (toServerResponse s).2 in
  _serverResponse (this s) = None ∧
  toServerResponse s = (Normal 0%nat, s') ∧
  payload_objects (store s) !! 0%nat = None ∧
  (∀ q, q ≠ 0%nat ->
        payload_objects (store s') !! q = payload_objects (store s) !! q) ∧
  (∀ l, l ≠ _headers (this s) ->
        headers_at (store s') l = headers_at (store s) l).
Proof.
  cbn zeta. do 2 (split; [reflexivity|]).
  exact (conversion_frame second_response _ 0%nat eq_refl eq_refl).
Defined.

(** A Content-Type header set by hand, then a text body. *)
Lemma content_type_is_not_overwritten_witness :
  let s := after_all [HeadersSet "Content-Type" "text/csv";
                      SetBody (JString "a,b")]
             (fresh_response plain_request) in
  let s' := (toServerResponse s).2 in
  _serverResponse (this s) = None ∧
  toServerResponse s = (Normal 0%nat, s') ∧
  Headers.has (current_headers s) "Content-Type" = true ∧
  current_headers s' = current_headers s.
Proof.
  cbn zeta. do 3 (split; [reflexivity|]).
  exact (content_type_is_not_overwritten
           (after_all [HeadersSet "Content-Type" "text/csv";
                       SetBody (JString "a,b")]
              (fresh_response plain_request))
           _ 0%nat eq_refl eq_refl eq_refl).
Defined.

(** A text body without type: the inferred type gives the header. *)
Lemma content_type_from_type_witness :
  let s := response_with_body plain_request (JString "hi") in
  _serverResponse (this s) = None ∧
  getBody s = (Normal (JUint8Array (TextEncoder_encode "hi")), (getBody s).2) ∧
  _type (this (getBody s).2) = Some "text/plain" ∧
  contentType "text/plain" = Some "text/plain; charset=utf-8" ∧
  Headers.has (current_headers s) "Content-Type" = false ∧
  ∃ p s',
    toServerResponse s = (Normal p, s') ∧
    current_headers s' =
    (current_headers s ++ [("content-type", "text/plain; charset=utf-8")])%list.
Proof.
  cbn zeta. do 5 (split; [reflexivity|]).
  exact (content_type_from_type
           (response_with_body plain_request (JString "hi")) _ _
           "text/plain" "text/plain; charset=utf-8"
           eq_refl eq_refl eq_refl ltac:(done) eq_refl ltac:(done) eq_refl).
Defined.

(** Status 301 set, then a redirect. *)
Lemma redirect_keeps_redirect_status_witness :
  let s := after (SetStatus 301) (fresh_response plain_request) in
  let s' := (redirect (ToString_ "/moved") None s).2 in
  _writable (this s) = true ∧
  _status (this s) = Some 301 ∧
  isRedirectStatus 301 = true ∧
  _status (this s') = Some 301 ∧
  status_value (this s') = 301.
Proof.
  cbn zeta. do 3 (split; [reflexivity|]).
  exact (redirect_keeps_redirect_status
           (after (SetStatus 301) (fresh_response plain_request))
           (ToString_ "/moved") None 301
           eq_refl eq_refl ltac:(done) eq_refl).
Defined.

(** A redirect to a path for a client that accepts html, then conversion. *)
Lemma redirect_then_conversion_witness :
  let s := fresh_response html_request in
  consistent s = true ∧
  _serverResponse (this s) = None ∧
  ∃ p s' payload,
    toServerResponse (after (Redirect (ToString_ "/login") None) s)
    = (Normal p, s') ∧
    payload_objects (store s') !! p = Some payload ∧
    sr_body payload =
    JUint8Array
      (TextEncoder_encode
         ("Redirecting to <a href=" ++ dquote ++ "/login" ++ dquote
          ++ ">/login</a>.")) ∧
    _type (this s') = Some "text/html; charset=utf-8" ∧
    (isRedirectStatus (status_value (this s)) = false ->
     sr_status payload = Status.Found) ∧
    Headers.get (headers_at (store s') (sr_headers payload)) "Location" =
    Some "/login".
Proof.
  cbn zeta. do 2 (split; [reflexivity|]).
  exact (redirect_then_conversion (fresh_response html_request)
           (ToString_ "/login") None eq_refl eq_refl).
Defined.

(** A header appended after conversion. *)
Lemma headers_stay_mutable_witness :
  let s := converted_response plain_request in
  let s' := after (HeadersAppend "X-Late" "1") s in
  consistent s = true ∧
  _serverResponse (this s) = Some 0%nat ∧
  Headers.legal_name "X-Late" = true ∧
  Headers.plain_value "1" = true ∧
  ∃ payload,
    payload_objects (store s') !! 0%nat = Some payload ∧
    this s' = this s ∧
    headers_at (store s') (sr_headers payload) =
    (headers_at (store s) (sr_headers payload) ++ [("x-late", "1")])%list.
Proof.
  cbn zeta. do 4 (split; [reflexivity|]).
  exact (headers_stay_mutable (converted_response plain_request) 0%nat
           "X-Late" "1" eq_refl eq_refl eq_refl eq_refl).
Defined.

(** The second instance takes over the [Headers] object of the first. *)
Lemma replaced_headers_conversion_witness :
  let s := second_response in
  let s' := (toServerResponse (after (SetHeaders 0%nat) s)).2 in
  _writable (this s) = true ∧
  _serverResponse (this s) = None ∧
  0%nat ≠ _headers (this s) ∧
  toServerResponse (after (SetHeaders 0%nat) s) = (Normal 0%nat, s') ∧
  ∃ payload,
    payload_objects (store s') !! 0%nat = Some payload ∧
    sr_headers payload = 0%nat ∧
    headers_at (store s') (_headers (this s)) =
    headers_at (store s) (_headers (this s)).
Proof.
  cbn zeta. do 2 (split; [reflexivity|]). split; [done|].
  split; [reflexivity|].
  exact (replaced_headers_conversion second_response _ 0%nat 0%nat
           eq_refl eq_refl ltac:(done) eq_refl).
Defined.

End FurtherRuns.
